(** * Peer liveness, DDNS change detection and auto-reconnect of the
    WireGuard gateway: a shallow embedding of
    [app/services/wireguard_monitor.py], [app/services/dns_resolver.py]
    and [app/services/auto_reconnect.py].

    Conventions of the embedding:
    - Python strings are [string] (one [ascii] per character);
    - Python dicts are association lists in insertion order, updated with
      [dict_set] (replace in place, or append a new key) and [dict_del];
    - [datetime] values are [Z] microseconds and [timedelta] constants are
      written out in microseconds;
    - every collaborator (the [wg] command, DNS, the mail server, the
      client store) is an explicit argument giving its answer. *)

From Stdlib Require Import String Ascii ZArith List Bool Lia.
Import ListNotations.
Open Scope string_scope.
Open Scope Z_scope.

(** ** Python dicts *)
Module PyDict.

Definition dict (V : Type) := list (string * V).

Fixpoint dict_get {V} (k : string) (d : dict V) : option V :=
  match d with
  | [] => None
  | (k', v) :: d' => if String.eqb k k' then Some v else dict_get k d'
  end.

Definition dict_mem {V} (k : string) (d : dict V) : bool :=
  existsb (fun kv => String.eqb k (fst kv)) d.

(** [d[k] = v]: an existing key keeps its position, a new key goes last. *)
Definition dict_set {V} (k : string) (v : V) (d : dict V) : dict V :=
  if dict_mem k d
  then map (fun kv => if String.eqb k (fst kv) then (k, v) else kv) d
  else app d [(k, v)].

(** [del d[k]]. *)
Definition dict_del {V} (k : string) (d : dict V) : dict V :=
  filter (fun kv => negb (String.eqb k (fst kv))) d.

End PyDict.
Import PyDict.

(** ** Python string methods used by the parsers *)
Module PyStr.

Definition code (c : ascii) : nat := nat_of_ascii c.

(** [str.isspace] on one character (ASCII and Latin-1 range). *)
Definition is_space (c : ascii) : bool :=
  let n := code c in
  (Nat.eqb n 32 || ((9 <=? n)%nat && (n <=? 13)%nat)
   || ((28 <=? n)%nat && (n <=? 31)%nat) || Nat.eqb n 133 || Nat.eqb n 160)%bool.

(** Line boundaries of [str.splitlines]. *)
Definition is_line_break (c : ascii) : bool :=
  let n := code c in
  (Nat.eqb n 10 || Nat.eqb n 13 || Nat.eqb n 11 || Nat.eqb n 12
   || Nat.eqb n 28 || Nat.eqb n 29 || Nat.eqb n 30 || Nat.eqb n 133)%bool.

Definition is_digit (c : ascii) : bool :=
  ((48 <=? code c)%nat && (code c <=? 57)%nat)%bool.

(** [s.startswith(p)]. *)
Definition startswith (p s : string) : bool := String.prefix p s.

(** [needle in hay]. *)
Fixpoint py_in (needle hay : string) : bool :=
  if String.prefix needle hay then true
  else match hay with
       | EmptyString => false
       | String _ hay' => py_in needle hay'
       end.

Fixpoint drop_spaces (l : list ascii) : list ascii :=
  match l with
  | c :: t => if is_space c then drop_spaces t else l
  | [] => []
  end.

(** [s.strip()]. *)
Definition strip (s : string) : string :=
  string_of_list_ascii
    (rev (drop_spaces (rev (drop_spaces (list_ascii_of_string s))))).

(** First occurrence of a non-empty separator: the text before and after. *)
Fixpoint break_at (sep s : string) : option (string * string) :=
  if String.prefix sep s
  then Some (EmptyString, substring (String.length sep) (String.length s) s)
  else match s with
       | EmptyString => None
       | String c s' =>
           match break_at sep s' with
           | Some (b, a) => Some (String c b, a)
           | None => None
           end
       end.

Fixpoint split_fuel (fuel : nat) (sep s : string) : list string :=
  match fuel with
  | O => [s]
  | S f =>
      match break_at sep s with
      | Some (b, a) => b :: split_fuel f sep a
      | None => [s]
      end
  end.

(** [s.split(sep)] for a non-empty [sep]: each cut consumes at least one
    character, so [length s + 1] rounds are enough. *)
Definition py_split (sep s : string) : list string :=
  split_fuel (S (String.length s)) sep s.

Fixpoint words_aux (l cur : list ascii) : list string :=
  match l with
  | [] => match cur with [] => [] | _ => [string_of_list_ascii (rev cur)] end
  | c :: t =>
      if is_space c
      then match cur with
           | [] => words_aux t []
           | _ => string_of_list_ascii (rev cur) :: words_aux t []
           end
      else words_aux t (c :: cur)
  end.

(** [s.split()]. *)
Definition split_ws (s : string) : list string :=
  words_aux (list_ascii_of_string s) [].

Fixpoint lines_aux (l cur : list ascii) : list string :=
  match l with
  | [] => match cur with [] => [] | _ => [string_of_list_ascii (rev cur)] end
  | c :: t =>
      if Nat.eqb (code c) 13
      then match t with
           | c' :: t' =>
               if Nat.eqb (code c') 10
               then string_of_list_ascii (rev cur) :: lines_aux t' []
               else string_of_list_ascii (rev cur) :: lines_aux t []
           | [] => string_of_list_ascii (rev cur) :: lines_aux t []
           end
      else if is_line_break c
      then string_of_list_ascii (rev cur) :: lines_aux t []
      else lines_aux t (c :: cur)
  end.

(** [s.splitlines()]. *)
Definition splitlines (s : string) : list string :=
  lines_aux (list_ascii_of_string s) [].

(** Decimal digits with single underscores between digits. *)
Fixpoint digits_acc (l : list ascii) (acc : Z) (prev_digit : bool) : option Z :=
  match l with
  | [] => if prev_digit then Some acc else None
  | c :: t =>
      if is_digit c
      then digits_acc t (acc * 10 + Z.of_nat (code c - 48)) true
      else if Nat.eqb (code c) 95 && prev_digit
      then digits_acc t acc false
      else None
  end.

(** [int(s)] for a [str] argument; [None] is the [ValueError]. *)
Definition py_int (s : string) : option Z :=
  let l := rev (drop_spaces (rev (drop_spaces (list_ascii_of_string s)))) in
  match l with
  | c :: t =>
      if Nat.eqb (code c) 45 then option_map Z.opp (digits_acc t 0 false)
      else if Nat.eqb (code c) 43 then digits_acc t 0 false
      else digits_acc l 0 false
  | [] => None
  end.

End PyStr.
Import PyStr.

(** ** Duration parser: the handshake branch of [check_interface]
    (wireguard_monitor.py, lines 62-93). *)
Module Duration.

(** What the [try] block computes from [handshake_str]: the "Now" shortcut,
    a number of seconds, or the exception raised ([ValueError] is caught by
    the inner handler, [IndexError] escapes to the outer one). *)
Inductive hs_parse := PNow | PSeconds (secs : Z) | PValueError | PIndexError.

(** [int(s.split()[0]) * mult]. *)
Definition first_int (s : string) (mult : Z) : hs_parse :=
  match split_ws s with
  | [] => PIndexError
  | tok :: _ =>
      match py_int tok with
      | Some n => PSeconds (n * mult)
      | None => PValueError
      end
  end.

(** The [for part in parts] loop of the combined format. *)
Fixpoint sum_parts (parts : list string) (total : Z) : hs_parse :=
  match parts with
  | [] => PSeconds total
  | p :: ps =>
      let p' := strip p in
      if py_in "minute" p' then
        match first_int p' 60 with
        | PSeconds m => sum_parts ps (total + m)
        | e => e
        end
      else if py_in "second" p' then
        match first_int p' 1 with
        | PSeconds s => sum_parts ps (total + s)
        | e => e
        end
      else sum_parts ps total
  end.

Definition parse_handshake (handshake_str : string) : hs_parse :=
  if String.eqb (strip handshake_str) "Now" then PNow
  else if py_in "," handshake_str then sum_parts (py_split "," handshake_str) 0
  else if py_in "seconds ago" handshake_str then first_int handshake_str 1
  else if py_in "minutes ago" handshake_str then first_int handshake_str 60
  else if py_in "hours ago" handshake_str then first_int handshake_str 3600
  else if py_in "days ago" handshake_str then first_int handshake_str 86400
  else PSeconds 0.

End Duration.
Import Duration.

(** ** Peer Status Tracker (wireguard_monitor.py) *)
Module Monitor.

Definition USEC : Z := 1000000.
(** [timedelta(hours=1)] *)
Definition ALERT_COOLDOWN : Z := 3600 * USEC.
(** [timedelta(minutes=30)] *)
Definition DISCONNECT_THRESHOLD : Z := 30 * 60 * USEC.

(** The class-level dicts [_last_handshakes] and [_last_alerts], and the
    number of [datetime.now()] reads made so far: the [k]-th read returns
    [clock k]. *)
Record mstate := MState {
  last_handshakes : dict Z;
  last_alerts : dict Z;
  reads : nat
}.

Definition now_ (clock : nat -> Z) (st : mstate) : Z * mstate :=
  (clock (reads st), MState (last_handshakes st) (last_alerts st) (S (reads st))).

Definition set_handshake (p : string) (t : Z) (st : mstate) : mstate :=
  MState (dict_set p t (last_handshakes st)) (last_alerts st) (reads st).

(** [subprocess.run(['sudo', 'wg', 'show', interface], ...)]: it raises,
    or completes with a return code and the captured output. *)
Inductive wg_result :=
| WgRaised
| WgCompleted (returncode : Z) (stdout stderr : string).

(** One round of the [for line in result.stdout.splitlines()] loop: go on
    with [peers] and [current_peer], or leave through the outer
    [except Exception] (the dict changes made so far stay). *)
Inductive line_res :=
| LContinue (peers : dict bool) (current_peer : option string) (st : mstate)
| LAbort (st : mstate).

(** Truthiness of [current_peer] ([None] and [""] are false). *)
Definition truthy (current_peer : option string) : option string :=
  match current_peer with
  | Some p => if String.eqb p "" then None else Some p
  | None => None
  end.

Definition process_line (clock : nat -> Z) (peers : dict bool)
    (current_peer : option string) (st : mstate) (line : string) : line_res :=
  if startswith "peer: " line then
    match nth_error (py_split ": " line) 1 with
    | Some p => LContinue (dict_set p true peers) (Some p) st
    | None => LAbort st
    end
  else if startswith "  latest handshake:" line then
    match truthy current_peer with
    | None => LContinue peers current_peer st
    | Some p =>
        match nth_error (py_split ": " line) 1 with
        | None => LAbort st
        | Some handshake_str =>
            if String.eqb handshake_str "0" then LContinue peers current_peer st
            else
              match parse_handshake handshake_str with
              | PNow =>
                  let (handshake_time, st1) := now_ clock st in
                  LContinue (dict_set p true peers) current_peer
                    (set_handshake p handshake_time st1)
              | PSeconds total_seconds =>
                  let (t1, st1) := now_ clock st in
                  let handshake_time := t1 - total_seconds * USEC in
                  let st2 := set_handshake p handshake_time st1 in
                  let (t2, st3) := now_ clock st2 in
                  let time_since_handshake := t2 - handshake_time in
                  LContinue
                    (dict_set p (time_since_handshake <=? DISCONNECT_THRESHOLD) peers)
                    current_peer st3
              | PValueError => LContinue peers current_peer st
              | PIndexError => LAbort st
              end
        end
    end
  else LContinue peers current_peer st.

Fixpoint scan_lines (clock : nat -> Z) (lines : list string) (peers : dict bool)
    (current_peer : option string) (st : mstate) : line_res :=
  match lines with
  | [] => LContinue peers current_peer st
  | l :: ls =>
      match process_line clock peers current_peer st l with
      | LContinue peers' cp' st' => scan_lines clock ls peers' cp' st'
      | LAbort st' => LAbort st'
      end
  end.

(** [WireGuardMonitor.check_interface]. *)
Definition check_interface (clock : nat -> Z) (wg_show : string -> wg_result)
    (interface : string) (st : mstate) : dict bool * mstate :=
  match wg_show interface with
  | WgRaised => ([], st)
  | WgCompleted rc out _ =>
      if negb (rc =? 0) then ([], st)
      else match scan_lines clock (splitlines out) [] None st with
           | LContinue peers _ st' => (peers, st')
           | LAbort st' => ([], st')
           end
  end.

(** [WireGuardMonitor.is_peer_connected]. *)
Definition is_peer_connected (clock : nat -> Z) (peer_key : string) (st : mstate)
    : bool * mstate :=
  match dict_get peer_key (last_handshakes st) with
  | None => (false, st)
  | Some last_handshake =>
      let (now, st1) := now_ clock st in
      (now - last_handshake <? DISCONNECT_THRESHOLD, st1)
  end.

(** [EmailService.send_alert]: [True], [False], or an exception.
    [AlertHistory.add_alert] and [log_monitoring_event] catch their own
    errors, so they do not appear. *)
Inductive send_outcome := SendOk | SendFailed | SendRaised.

(** One call of [EmailService.send_alert] made by [check_and_alert]. *)
Record dispatch := Dispatch {
  d_peer : string;
  d_time : Z;
  d_outcome : send_outcome
}.

(** [not last_alert or (now - last_alert) > ALERT_COOLDOWN]. *)
Definition alert_due (last_alerts : dict Z) (peer : string) (now : Z) : bool :=
  match dict_get peer last_alerts with
  | None => true
  | Some last_alert => now - last_alert >? ALERT_COOLDOWN
  end.

(** The body of [for peer, is_connected in peers.items()]. *)
Definition alert_peer (send : string -> send_outcome) (now : Z)
    (last_alerts : dict Z) (pc : string * bool) : dict Z * list dispatch :=
  let (peer, is_connected) := pc in
  if is_connected then (last_alerts, [])
  else if alert_due last_alerts peer now then
    match send peer with
    | SendOk => (dict_set peer now last_alerts, [Dispatch peer now SendOk])
    | o => (last_alerts, [Dispatch peer now o])
    end
  else (last_alerts, []).

Fixpoint alert_loop (send : string -> send_outcome) (now : Z)
    (last_alerts : dict Z) (peers : dict bool) : dict Z * list dispatch :=
  match peers with
  | [] => (last_alerts, [])
  | pc :: rest =>
      let (la1, ds1) := alert_peer send now last_alerts pc in
      let (la2, ds2) := alert_loop send now la1 rest in
      (la2, app ds1 ds2)
  end.

(** [WireGuardMonitor.check_and_alert]; also returns the dispatches made. *)
Definition check_and_alert (clock : nat -> Z) (wg_show : string -> wg_result)
    (send : string -> send_outcome) (interface : string) (st : mstate)
    : mstate * list dispatch :=
  let (peers, st1) := check_interface clock wg_show interface st in
  let (now, st2) := now_ clock st1 in
  let (la, ds) := alert_loop send now (last_alerts st2) peers in
  (MState (last_handshakes st2) la (reads st2), ds).

(** A poll of the handshake loop: which interface, what [wg show] answers,
    what the mail server answers. *)
Record tick := Tick {
  t_interface : string;
  t_wg : string -> wg_result;
  t_send : string -> send_outcome
}.

Fixpoint run_checks (clock : nat -> Z) (ticks : list tick) (st : mstate)
    : mstate * list dispatch :=
  match ticks with
  | [] => (st, [])
  | tk :: rest =>
      let (st1, ds1) := check_and_alert clock (t_wg tk) (t_send tk) (t_interface tk) st in
      let (st2, ds2) := run_checks clock rest st1 in
      (st2, app ds1 ds2)
  end.

(** Times of the successful alerts sent for [peer]. *)
Definition sent_times (peer : string) (ds : list dispatch) : list Z :=
  map d_time (filter (fun d => String.eqb (d_peer d) peer
                               && match d_outcome d with SendOk => true | _ => false end)
                     ds).

(** Successful alerts for [peer] in [ds] are more than [ALERT_COOLDOWN]
    apart, and each is the recorded last alert or lies more than
    [ALERT_COOLDOWN] before it. *)
Definition success_spacing (peer : string) (last_alerts : dict Z) (ds : list dispatch) : Prop :=
  ForallOrdPairs (fun t1 t2 => t2 - t1 > ALERT_COOLDOWN) (sent_times peer ds)
  /\ Forall (fun t => exists l, dict_get peer last_alerts = Some l
                                /\ (t = l \/ l - t > ALERT_COOLDOWN))
            (sent_times peer ds).

End Monitor.

(** ** Reconnection Controller (auto_reconnect.py) *)
Module Reconnect.

Definition MAX_RECONNECT_ATTEMPTS : Z := 3.
(** [timedelta(minutes=5)] *)
Definition RECONNECT_COOLDOWN : Z := 5 * 60 * Monitor.USEC.

(** One value of [_reconnection_attempts]: the keys ['count'] and
    ['last_attempt'] are always present, ['last_success'] only after a
    success. *)
Record attempts := Attempts {
  count : Z;
  last_attempt : Z;
  last_success : option Z
}.

Definition rstate := dict attempts.

(** [_should_attempt_reconnection]; [now] is the time read by
    [datetime.now()] in this call (the two reads of the reset branch are
    taken as one instant). *)
Definition should_attempt_reconnection (now : Z) (client_id : string) (s : rstate)
    : bool * rstate :=
  match dict_get client_id s with
  | None => (true, s)
  | Some a =>
      if MAX_RECONNECT_ATTEMPTS <=? count a then
        if now - last_attempt a >? RECONNECT_COOLDOWN
        then (true, dict_set client_id (Attempts 0 now None) s)
        else (false, s)
      else if now - last_attempt a <? RECONNECT_COOLDOWN then (false, s)
      else (true, s)
  end.

(** [_update_reconnection_tracking]. *)
Definition update_reconnection_tracking (now : Z) (client_id : string)
    (success : bool) (s : rstate) : rstate :=
  let s1 := if dict_mem client_id s then s
            else dict_set client_id (Attempts 0 now None) s in
  match dict_get client_id s1 with
  | Some a =>
      if success
      then dict_set client_id (Attempts 0 now (Some now)) s1
      else dict_set client_id (Attempts (count a + 1) now (last_success a)) s1
  | None => s1
  end.

(** The answers of the collaborators called by [_reconnect_client].
    [deactivate_client] and [activate_client] catch their own errors and
    return [(success, error)]; [update_client_status] has no handler;
    [config_content] is [None] when [open] raises; [ping_returncode] is
    [None] when [subprocess.run] raises. *)
Record reconnect_env := ReconnectEnv {
  deactivate_ok : bool;
  activate_ok : bool;
  status_update_raises : bool;
  config_content : option string;
  ping_returncode : option Z
}.

(** Effects of [_reconnect_client], in order. *)
Inductive action :=
| ALog (event_type : string)
| ADeactivate
| ASleep
| AActivate
| AMarkActive
| APing (ip : string).

Fixpoint strip_prefix (p l : list ascii) : option (list ascii) :=
  match p, l with
  | [], _ => Some l
  | c :: p', c' :: l' => if Ascii.eqb c c' then strip_prefix p' l' else None
  | _ :: _, [] => None
  end.

(** [[^/\s,]] *)
Definition is_addr_char (c : ascii) : bool :=
  negb (is_space c) && negb (Nat.eqb (code c) 47) && negb (Nat.eqb (code c) 44).

Fixpoint take_while (f : ascii -> bool) (l : list ascii) : list ascii :=
  match l with
  | c :: t => if f c then c :: take_while f t else []
  | [] => []
  end.

(** [Address\s*=\s*([^/\s,]+)] matched at the head of [l]; the greedy
    [\s*] never needs to give back, since [=] and [[^/\s,]] exclude
    whitespace. *)
Definition match_address_at (l : list ascii) : option (list ascii) :=
  match strip_prefix (list_ascii_of_string "Address") l with
  | None => None
  | Some r1 =>
      match drop_spaces r1 with
      | c :: r2 =>
          if Nat.eqb (code c) 61 then
            match take_while is_addr_char (drop_spaces r2) with
            | [] => None
            | g => Some g
            end
          else None
      | [] => None
      end
  end.

(** [re.search]: the leftmost match. *)
Fixpoint search_address (l : list ascii) : option (list ascii) :=
  match match_address_at l with
  | Some g => Some g
  | None => match l with [] => None | _ :: t => search_address t end
  end.

(** [address_match.group(1).strip()], or [None] when there is no match. *)
Definition extract_address (config_content : string) : option string :=
  option_map (fun g => strip (string_of_list_ascii g))
             (search_address (list_ascii_of_string config_content)).

(** Step 5, inside its own [try/except Exception]. *)
Definition probe (e : reconnect_env) : list action :=
  match config_content e with
  | None => []
  | Some content =>
      match extract_address content with
      | None => []
      | Some client_ip =>
          APing client_ip ::
          match ping_returncode e with
          | Some rc => if rc =? 0 then [ALog "reconnect_handshake_established"] else []
          | None => []
          end
      end
  end.

(** [_reconnect_client]: its result and its effects. *)
Definition reconnect_client (e : reconnect_env) : bool * list action :=
  let start := [ALog "reconnect_attempt"] in
  if negb (deactivate_ok e) then (false, app start [ADeactivate])
  else if negb (activate_ok e) then (false, app start [ADeactivate; ASleep; AActivate])
  else if status_update_raises e
  then (false, app start [ADeactivate; ASleep; AActivate; AMarkActive;
                          ALog "reconnect_failed"])
  else (true, app start (app [ADeactivate; ASleep; AActivate; AMarkActive]
                             (app (probe e) [ALog "reconnect_success"]))).

(** [config_storage.get_client(client_id)]. *)
Inductive client_lookup := ClientFound | ClientMissing | LookupRaised.

(** How [handle_dns_change] ends. *)
Inductive handled := Returned (attempted : bool) | Raised.

(** [handle_dns_change]; [t_gate] is the time of the gate,
    [t_update] the time of the tracking update. *)
Definition handle_dns_change (t_gate t_update : Z) (client_id : string)
    (lookup : client_lookup) (e : reconnect_env) (s : rstate) : handled * rstate :=
  let (ok, s1) := should_attempt_reconnection t_gate client_id s in
  if negb ok then (Returned false, s1)
  else match lookup with
       | LookupRaised => (Raised, s1)
       | ClientMissing => (Returned false, s1)
       | ClientFound =>
           let success := fst (reconnect_client e) in
           (Returned true, update_reconnection_tracking t_update client_id success s1)
       end.

(** One value of the dict returned by [get_reconnection_status]. *)
Record rstatus := RStatus {
  attempt_count : Z;
  max_attempts : Z;
  st_last_attempt : option Z;
  st_last_success : option Z;
  time_since_attempt : option Z;
  time_since_success : option Z;
  can_reconnect : bool
}.

Fixpoint status_loop (now : Z) (items : rstate) (s : rstate) : dict rstatus * rstate :=
  match items with
  | [] => ([], s)
  | (client_id, a) :: rest =>
      let (can, s1) := should_attempt_reconnection now client_id s in
      let entry := RStatus (count a) MAX_RECONNECT_ATTEMPTS (Some (last_attempt a))
                     (last_success a) (Some (now - last_attempt a))
                     (option_map (fun t => now - t) (last_success a)) can in
      let (out, s2) := status_loop now rest s1 in
      ((client_id, entry) :: out, s2)
  end.

(** [get_reconnection_status]: iterates over the items of the dict while
    [_should_attempt_reconnection] may overwrite the value of the current
    key. *)
Definition get_reconnection_status (now : Z) (s : rstate) : dict rstatus * rstate :=
  status_loop now s s.

(** [clear_reconnection_history] *)
Definition clear_reconnection_history (client_id : string) (s : rstate) : rstate :=
  if dict_mem client_id s then dict_del client_id s else s.

(** What one evaluation of [_should_attempt_reconnection] at [now] does to
    the stored value of its client. *)
Definition gate_effect (now : Z) (o : option attempts) : option attempts :=
  match o with
  | Some a =>
      if (MAX_RECONNECT_ATTEMPTS <=? count a) && (now - last_attempt a >? RECONNECT_COOLDOWN)
      then Some (Attempts 0 now None) else Some a
  | None => None
  end.

(** The invariant of reachable states: the count never passes the maximum. *)
Definition counts_bounded (s : rstate) : Prop :=
  forall cid a, dict_get cid s = Some a -> count a <= MAX_RECONNECT_ATTEMPTS.

End Reconnect.

(** ** Hostname Resolver and Change Detector (dns_resolver.py) *)
Module Dns.

(** [timedelta(minutes=5)] *)
Definition DNS_CHECK_INTERVAL : Z := 5 * 60 * Monitor.USEC.

Record dstate := DState {
  resolved_ips : dict string;
  last_checks : dict Z;
  client_hostnames : dict string;
  client_names : dict string
}.

(** [register_client_hostname]; [client_name] is [None] when omitted. *)
Definition register_client_hostname (client_id hostname : string)
    (client_name : option string) (s : dstate) : dstate :=
  DState (resolved_ips s) (last_checks s)
    (dict_set hostname client_id (client_hostnames s))
    (match client_name with
     | Some n => if String.eqb n "" then client_names s
                 else dict_set client_id n (client_names s)
     | None => client_names s
     end).

Definition remove_hostname (s : dstate) (hostname : string) : dstate :=
  DState
    (if dict_mem hostname (resolved_ips s) then dict_del hostname (resolved_ips s)
     else resolved_ips s)
    (if dict_mem hostname (last_checks s) then dict_del hostname (last_checks s)
     else last_checks s)
    (dict_del hostname (client_hostnames s))
    (client_names s).

(** [unregister_client_hostname]. *)
Definition unregister_client_hostname (client_id : string) (s : dstate) : dstate :=
  let hostnames_to_remove :=
    map fst (filter (fun hc => String.eqb (snd hc) client_id) (client_hostnames s)) in
  let s1 := fold_left remove_hostname hostnames_to_remove s in
  DState (resolved_ips s1) (last_checks s1) (client_hostnames s1)
    (if dict_mem client_id (client_names s1) then dict_del client_id (client_names s1)
     else client_names s1).

(** A [change_info] dict. *)
Record change := Change {
  c_client_id : string;
  c_hostname : string;
  c_previous_ip : string;
  c_current_ip : string;
  c_timestamp : Z
}.

(** The body of the loop of [check_hostname_changes]; [resolve] is the
    answer of [resolve_hostname] ([None] when it fails). *)
Definition check_one (now : Z) (resolve : string -> option string) (s : dstate)
    (hc : string * string) : dstate * list change :=
  let (hostname, client_id) := hc in
  let recent := match dict_get hostname (last_checks s) with
                | Some last_check => now - last_check <? DNS_CHECK_INTERVAL
                | None => false
                end in
  if recent then (s, [])
  else match resolve hostname with
       | None => (s, [])
       | Some current_ip =>
           if String.eqb current_ip "" then (s, [])
           else
             let changes :=
               match dict_get hostname (resolved_ips s) with
               | Some previous_ip =>
                   if negb (String.eqb previous_ip "")
                      && negb (String.eqb previous_ip current_ip)
                   then [Change client_id hostname previous_ip current_ip now]
                   else []
               | None => []
               end in
             (DState (dict_set hostname current_ip (resolved_ips s))
                     (dict_set hostname now (last_checks s))
                     (client_hostnames s) (client_names s),
              changes)
       end.

Fixpoint check_loop (now : Z) (resolve : string -> option string)
    (items : dict string) (s : dstate) : dstate * list change :=
  match items with
  | [] => (s, [])
  | hc :: rest =>
      let (s1, c1) := check_one now resolve s hc in
      let (s2, c2) := check_loop now resolve rest s1 in
      (s2, app c1 c2)
  end.

(** [check_hostname_changes]. *)
Definition check_hostname_changes (now : Z) (resolve : string -> option string)
    (s : dstate) : dstate * list change :=
  check_loop now resolve (client_hostnames s) s.

(** The operations the rest of the program performs on the resolver. *)
Inductive dns_op :=
| OpCheck (now : Z) (resolve : string -> option string)
| OpRegister (client_id hostname : string) (client_name : option string)
| OpUnregister (client_id : string).

Fixpoint run_dns (ops : list dns_op) (s : dstate) : dstate * list change :=
  match ops with
  | [] => (s, [])
  | OpCheck now resolve :: rest =>
      let (s1, c1) := check_hostname_changes now resolve s in
      let (s2, c2) := run_dns rest s1 in
      (s2, app c1 c2)
  | OpRegister cid h n :: rest => run_dns rest (register_client_hostname cid h n s)
  | OpUnregister cid :: rest => run_dns rest (unregister_client_hostname cid s)
  end.

(** Reachable states: hostname keys are distinct (a Python dict) and a
    stored address is never empty (only a truthy [current_ip] is stored). *)
Definition dns_reachable (s : dstate) : Prop :=
  NoDup (map fst (client_hostnames s))
  /\ forall h p, dict_get h (resolved_ips s) = Some p -> p <> "".

(** A resolver state with one registered hostname [h] of client [c],
    last resolved to 1.1.1.1. *)
Definition dns_s0 : dstate := DState [("h", "1.1.1.1")] [] [("h", "c")] [].

End Dns.

(** ** Endpoint extraction, registration from a config, hostname status
    (dns_resolver.py, config_storage.py) *)
Module DnsConfig.
Import Dns.

(** [socket.inet_aton(hostname)]: it succeeds, raises [socket.error]
    ([OSError]), or raises another exception (a [ValueError] for an
    embedded NUL character). *)
Inductive inet_result := InetOk | InetError | InetRaises.

(** [_is_ip_address]; [None] is an exception that escapes it. *)
Definition is_ip_address (inet_aton : string -> inet_result) (hostname : string)
    : option bool :=
  match inet_aton hostname with
  | InetOk => Some true
  | InetError => Some false
  | InetRaises => None
  end.

(** [[^:]] *)
Definition not_colon (c : ascii) : bool := negb (Nat.eqb (code c) 58).

(** Group 1 of [Endpoint\s*=\s*([^:]+):(\d+)] matched at the head of [l].
    After [=], the greedy [\s*] takes the [k] leading spaces of [r2] and
    [[^:]+] runs to the first colon of [r2], at index [e] ([k <= e]);
    a shorter [[^:]+] would stop before a non-colon, so the match needs
    [':'] and a digit at index [e]. When [k < e] the group is
    [r2[k:e]]; when [k = e >= 1] the [\s*] gives back its last space and
    the group is [r2[e-1:e]]; when [e = 0] there is no match. *)
Definition match_endpoint_at (l : list ascii) : option (list ascii) :=
  match Reconnect.strip_prefix (list_ascii_of_string "Endpoint") l with
  | None => None
  | Some r1 =>
      match drop_spaces r1 with
      | c :: r2 =>
          if Nat.eqb (code c) 61 then
            let k := length (Reconnect.take_while is_space r2) in
            let e := length (Reconnect.take_while not_colon r2) in
            match skipn e r2 with
            | c1 :: d :: _ =>
                if Nat.eqb (code c1) 58 && is_digit d then
                  if (k <? e)%nat then Some (firstn (e - k) (skipn k r2))
                  else if (1 <=? e)%nat then Some (firstn 1 (skipn (e - 1) r2))
                  else None
                else None
            | _ => None
            end
          else None
      | [] => None
      end
  end.

(** [re.search]: the leftmost match. *)
Fixpoint search_endpoint (l : list ascii) : option (list ascii) :=
  match match_endpoint_at l with
  | Some g => Some g
  | None => match l with [] => None | _ :: t => search_endpoint t end
  end.

(** [extract_hostname_from_config]; an exception inside its [try] gives
    [None]. *)
Definition extract_hostname_from_config (inet_aton : string -> inet_result)
    (config_content : string) : option string :=
  match search_endpoint (list_ascii_of_string config_content) with
  | Some g =>
      let hostname := strip (string_of_list_ascii g) in
      match is_ip_address inet_aton hostname with
      | Some false => Some hostname
      | Some true => None
      | None => None
      end
  | None => None
  end.

(** [self.get_client(client_id)] as seen by
    [_register_hostname_for_monitoring]: a row with its name, no row, or
    an exception. *)
Inductive name_lookup := NameFound (name : string) | NameMissing | NameRaised.

(** [ConfigStorageService._register_hostname_for_monitoring]. *)
Definition register_hostname_for_monitoring (inet_aton : string -> inet_result)
    (client_id config_content : string) (lookup : name_lookup) (s : dstate) : dstate :=
  match extract_hostname_from_config inet_aton config_content with
  | Some hostname =>
      if String.eqb hostname "" then s
      else match lookup with
           | NameFound n => register_client_hostname client_id hostname (Some n) s
           | NameMissing => register_client_hostname client_id hostname (Some "Unknown") s
           | NameRaised => s
           end
  | None => s
  end.

(** One value of the dict returned by [get_hostname_status]. *)
Record hstatus := HStatus {
  hs_client_id : string;
  hs_client_name : string;
  hs_resolved_ip : option string;
  hs_last_check : option Z;
  hs_time_since_check : option Z
}.

Fixpoint hostname_status_loop (now : Z) (s : dstate) (items : dict string)
    (status : dict hstatus) : dict hstatus :=
  match items with
  | [] => status
  | (hostname, client_id) :: rest =>
      let last_check := dict_get hostname (last_checks s) in
      let entry := HStatus client_id
                     (match dict_get client_id (client_names s) with
                      | Some n => n | None => "Unknown" end)
                     (dict_get hostname (resolved_ips s)) last_check
                     (option_map (fun t => now - t) last_check) in
      hostname_status_loop now s rest (dict_set hostname entry status)
  end.

(** [get_hostname_status]. *)
Definition get_hostname_status (now : Z) (s : dstate) : dict hstatus :=
  hostname_status_loop now s (client_hostnames s) [].

End DnsConfig.

(** ** The DNS change callback (app/__init__.py) *)
Module DnsCallback.
Import Dns Reconnect.

(** The answers seen by one call of [handle_dns_change]: the gate time,
    the tracking time, [get_client] and the reconnect collaborators. *)
Definition answer := (Z * Z * client_lookup * reconnect_env)%type.

(** [handle_dns_changes] of [init_dns_monitoring_and_auto_reconnect]: it
    calls [handle_dns_change] on each change in order; the [i]-th call
    sees [answers i]. An exception leaves the loop, and
    [_trigger_reconnections] catches it. *)
Fixpoint handle_dns_changes (answers : nat -> answer) (i : nat)
    (changes : list change) (s : rstate) : list handled * rstate :=
  match changes with
  | [] => ([], s)
  | ch :: rest =>
      let '(tg, tu, lk, e) := answers i in
      let (r, s1) := handle_dns_change tg tu (c_client_id ch) lk e s in
      match r with
      | Raised => ([Raised], s1)
      | Returned b =>
          let (rs, s2) := handle_dns_changes answers (S i) rest s1 in
          (Returned b :: rs, s2)
      end
  end.

End DnsCallback.

(** ** Connection status and the peers of a [wg show] listing
    (wireguard_monitor.py) *)
Module MonitorStatus.
Import Monitor.

(** One value of the dict returned by [get_connection_status]. *)
Record cstatus := CStatus {
  connected : bool;
  cs_last_handshake : Z;
  cs_last_alert : option Z;
  cs_time_since_handshake : Z
}.

Fixpoint connection_status_loop (now : Z) (last_alerts : dict Z) (items : dict Z)
    (status : dict cstatus) : dict cstatus :=
  match items with
  | [] => status
  | (peer_key, last_handshake) :: rest =>
      connection_status_loop now last_alerts rest
        (dict_set peer_key
           (CStatus (now - last_handshake <? DISCONNECT_THRESHOLD) last_handshake
              (dict_get peer_key last_alerts) (now - last_handshake))
           status)
  end.

(** [get_connection_status]: one read of the clock. *)
Definition get_connection_status (clock : nat -> Z) (st : mstate)
    : dict cstatus * mstate :=
  let (now, st1) := now_ clock st in
  (connection_status_loop now (last_alerts st1) (last_handshakes st1) [], st1).

(** The peer names of the [peer: ] lines of a listing, as
    [line.split(': ')[1]] reads them. *)
Definition peer_names (lines : list string) : list string :=
  flat_map (fun line =>
              if startswith "peer: " line then
                match nth_error (py_split ": " line) 1 with
                | Some p => [p]
                | None => []
                end
              else [])
           lines.

End MonitorStatus.

(** ** The status-update task (tasks.py) *)
Module Tasks.
Import Monitor.

(** [str.rfind] of one character: the last index, or [-1]. *)
Fixpoint rfind_aux (c : ascii) (l : list ascii) (i acc : Z) : Z :=
  match l with
  | [] => acc
  | x :: t => rfind_aux c t (i + 1) (if Ascii.eqb x c then i else acc)
  end.

Definition rfind (c : ascii) (l : list ascii) : Z := rfind_aux c l 0 (-1).

(** [os.path.basename] (posixpath): [p[p.rfind('/') + 1:]]. *)
Definition basename (p : string) : string :=
  let l := list_ascii_of_string p in
  string_of_list_ascii (skipn (Z.to_nat (rfind "/"%char l + 1)) l).

(** [os.path.splitext] (posixpath, through [genericpath._splitext]): the
    last dot splits when it follows the last slash and some character
    between them is not a dot. *)
Definition splitext (p : string) : string * string :=
  let l := list_ascii_of_string p in
  let sepIndex := rfind "/"%char l in
  let dotIndex := rfind "."%char l in
  if sepIndex <? dotIndex then
    let between := firstn (Z.to_nat (dotIndex - (sepIndex + 1)))
                          (skipn (Z.to_nat (sepIndex + 1)) l) in
    if existsb (fun c => negb (Ascii.eqb c "."%char)) between
    then (string_of_list_ascii (firstn (Z.to_nat dotIndex) l),
          string_of_list_ascii (skipn (Z.to_nat dotIndex) l))
    else (p, "")
  else (p, "").

(** [os.path.splitext(os.path.basename(client['config_path']))[0]] *)
Definition interface_name (config_path : string) : string :=
  fst (splitext (basename config_path)).





End Tasks.

(** ** Clearing the whole reconnection history (auto_reconnect.py) *)
Module ReconnectMore.
Import Reconnect.

(** [clear_all_reconnection_history]: [dict.clear()]. *)
Definition clear_all_reconnection_history (s : rstate) : rstate := [].

End ReconnectMore.

(** ** What a change event of the detector states *)
Module DnsEvents.
Import Dns.

(** What an event of [check_one] on [(h, c)] from [s] says. *)
Definition due (now : Z) (s : dstate) (h : string) : Prop :=
  match dict_get h (last_checks s) with
  | Some lc => DNS_CHECK_INTERVAL <= now - lc
  | None => True
  end.

Definition ev_before (now : Z) (resolve : string -> option string) (s : dstate)
    (ev : change) : Prop :=
  due now s (c_hostname ev)
  /\ dict_get (c_hostname ev) (resolved_ips s) = Some (c_previous_ip ev)
  /\ resolve (c_hostname ev) = Some (c_current_ip ev)
  /\ c_previous_ip ev <> "" /\ c_current_ip ev <> ""
  /\ c_previous_ip ev <> c_current_ip ev
  /\ c_timestamp ev = now.

Definition ev_after (now : Z) (s : dstate) (ev : change) : Prop :=
  dict_get (c_hostname ev) (resolved_ips s) = Some (c_current_ip ev)
  /\ dict_get (c_hostname ev) (last_checks s) = Some now.

End DnsEvents.

(** ** The invariant of the scan of a [wg show] listing *)
Module MonitorScan.
Import Monitor MonitorStatus.

(** The invariant of the scan of a listing whose peer names satisfy [P]:
    every key of [peers] and the current peer satisfy [P], and a peer
    marked disconnected has a recorded last handshake. *)
Definition scan_inv (P : string -> Prop) (peers : dict bool) (cp : option string)
    (st : mstate) : Prop :=
  (forall p, dict_get p peers <> None -> P p)
  /\ (forall p, truthy cp = Some p -> P p)
  /\ (forall p, dict_get p peers = Some false -> dict_get p (last_handshakes st) <> None).

End MonitorScan.

(** ** Lemmas on Python dicts *)

Lemma eqb_refl_s : forall s, String.eqb s s = true.
Proof. intro s. apply String.eqb_eq. reflexivity. Qed.

Lemma eqb_neq_s : forall s t, s <> t -> String.eqb s t = false.
Proof. intros s t H. apply String.eqb_neq. exact H. Qed.

Lemma get_map_replace : forall {V} k k' (v : V) d,
  dict_get k' (map (fun kv => if String.eqb k (fst kv) then (k, v) else kv) d)
  = if String.eqb k' k then (if dict_mem k d then Some v else None) else dict_get k' d.
Proof.
  intros V k k' v d. induction d as [|[k0 v0] d IH]; simpl.
  - destruct (String.eqb k' k); reflexivity.
  - unfold dict_mem in *. simpl. rewrite IH.
    destruct (String.eqb_spec k k0) as [<-|Hne]; simpl.
    + rewrite ?eqb_refl_s. simpl. destruct (String.eqb k' k); reflexivity.
    + rewrite ?(eqb_neq_s k k0 Hne). simpl.
      destruct (String.eqb_spec k' k) as [->|Hne'].
      * rewrite ?(eqb_neq_s k k0 Hne). reflexivity.
      * reflexivity.
Qed.

Lemma get_app : forall {V} k (d1 d2 : dict V),
  dict_get k (app d1 d2) = match dict_get k d1 with Some v => Some v | None => dict_get k d2 end.
Proof.
  intros V k d1 d2. induction d1 as [|[k0 v0] d1 IH]; simpl; [reflexivity|].
  destruct (String.eqb k k0); [reflexivity|exact IH].
Qed.

Lemma get_none_mem : forall {V} k (d : dict V), dict_mem k d = false -> dict_get k d = None.
Proof.
  intros V k d. induction d as [|[k0 v0] d IH]; simpl; [reflexivity|].
  unfold dict_mem in *. simpl. destruct (String.eqb k k0); simpl; [discriminate|exact IH].
Qed.

Lemma get_set_same : forall {V} k (v : V) d, dict_get k (dict_set k v d) = Some v.
Proof.
  intros V k v d. unfold dict_set. destruct (dict_mem k d) eqn:Hm.
  - rewrite get_map_replace, eqb_refl_s, Hm. reflexivity.
  - rewrite get_app, (get_none_mem k d Hm). simpl. rewrite eqb_refl_s. reflexivity.
Qed.

Lemma get_set_other : forall {V} k k' (v : V) d,
  k' <> k -> dict_get k' (dict_set k v d) = dict_get k' d.
Proof.
  intros V k k' v d Hne. unfold dict_set. destruct (dict_mem k d).
  - rewrite get_map_replace, (eqb_neq_s k' k Hne). reflexivity.
  - rewrite get_app. destruct (dict_get k' d); [reflexivity|].
    simpl. rewrite (eqb_neq_s k' k Hne). reflexivity.
Qed.

Lemma get_del_same : forall {V} k (d : dict V), dict_get k (dict_del k d) = None.
Proof.
  intros V k d. induction d as [|[k0 v0] d IH]; simpl; [reflexivity|].
  destruct (String.eqb k k0) eqn:E; simpl; [exact IH|].
  rewrite E. exact IH.
Qed.

Lemma get_del_other : forall {V} k k' (d : dict V),
  k' <> k -> dict_get k' (dict_del k d) = dict_get k' d.
Proof.
  intros V k k' d Hne. induction d as [|[k0 v0] d IH]; simpl; [reflexivity|].
  destruct (String.eqb_spec k k0) as [<-|Hne0]; simpl.
  - rewrite (eqb_neq_s k' k Hne). exact IH.
  - destruct (String.eqb k' k0); [reflexivity|exact IH].
Qed.

Lemma mem_get : forall {V} k (d : dict V),
  dict_mem k d = match dict_get k d with Some _ => true | None => false end.
Proof.
  intros V k d. induction d as [|[k0 v0] d IH]; simpl; [reflexivity|].
  unfold dict_mem in *. simpl. destruct (String.eqb k k0); [reflexivity|exact IH].
Qed.

Lemma get_In : forall {V} k (v : V) d, dict_get k d = Some v -> In (k, v) d.
Proof.
  intros V k v d. induction d as [|[k0 v0] d IH]; simpl; [discriminate|].
  destruct (String.eqb_spec k k0) as [<-|_].
  - intros H. inversion H. left. reflexivity.
  - intros H. right. exact (IH H).
Qed.

(** ** C1: the duration parser *)

(** C1. The handshake parser gives the expected seconds on the combined
    form, on the plural single-unit forms and on "Now", but the single-unit
    branch only looks for the plural texts "seconds ago", "minutes ago",
    "hours ago" and "days ago": the singular forms "1 second ago",
    "1 minute ago", "1 hour ago" and "1 day ago" match none of them and
    give 0 seconds; a peer last seen "1 day ago" is then classified
    connected by [check_interface]. *)
Theorem parse_handshake_singular_forms :
  parse_handshake "1 minute, 45 seconds ago" = PSeconds 105
  /\ parse_handshake "2 hours ago" = PSeconds 7200
  /\ parse_handshake "Now" = PNow
  /\ parse_handshake "1 second ago" = PSeconds 0
  /\ parse_handshake "1 minute ago" = PSeconds 0
  /\ parse_handshake "1 hour ago" = PSeconds 0
  /\ parse_handshake "1 day ago" = PSeconds 0
  /\ fst (Monitor.check_interface (fun _ => 0)
            (fun _ => Monitor.WgCompleted 0
                        ("peer: P" ++ String (ascii_of_nat 10) "  latest handshake: 1 day ago") "")
            "wg0" (Monitor.MState [] [] 0)) = [("P", true)].
Proof. vm_compute. repeat split. Qed.

(** ** C5: the disconnect threshold *)

(** C5. [check_interface] classifies a computed elapsed time equal to
    [DISCONNECT_THRESHOLD] as connected (a peer seen "30 minutes ago" with
    no clock advance between the two reads), while [is_peer_connected]
    compares with a strict [<] and answers disconnected for a last
    handshake exactly [DISCONNECT_THRESHOLD] before the query. *)
Theorem threshold_boundary_disagrees :
  fst (Monitor.check_interface (fun _ => Monitor.DISCONNECT_THRESHOLD)
         (fun _ => Monitor.WgCompleted 0
                     ("peer: P" ++ String (ascii_of_nat 10) "  latest handshake: 30 minutes ago") "")
         "wg0" (Monitor.MState [] [] 0)) = [("P", true)]
  /\ fst (Monitor.is_peer_connected (fun _ => Monitor.DISCONNECT_THRESHOLD) "P"
            (Monitor.MState [("P", 0)] [] 0)) = false.
Proof. vm_compute. split; reflexivity. Qed.

(** ** C9: failed status queries *)

(** C9. Whenever [wg show] raises or exits with a non-zero code (which
    covers an interface that does not exist), [check_interface] returns the
    empty dict; so a non-empty result only comes from a query that exited
    with 0. *)
Theorem check_interface_failed_query_empty :
  forall clock wg_show interface st,
    (forall out err, wg_show interface <> Monitor.WgCompleted 0 out err) ->
    fst (Monitor.check_interface clock wg_show interface st) = [].
Proof.
  intros clock wg_show interface st H. unfold Monitor.check_interface.
  destruct (wg_show interface) as [|rc out err] eqn:E; [reflexivity|].
  destruct (Z.eqb_spec rc 0) as [->|Hne].
  - exfalso. exact (H out err eq_refl).
  - reflexivity.
Qed.

Lemma check_interface_failed_query_empty_witness :
  (forall out err, Monitor.WgCompleted 1 "" "No such device" <> Monitor.WgCompleted 0 out err)
  /\ fst (Monitor.check_interface (fun _ => 0)
            (fun _ => Monitor.WgCompleted 1 "" "No such device") "wg9"
            (Monitor.MState [] [] 0)) = [].
Proof.
  split.
  - intros out err H. inversion H.
  - apply (check_interface_failed_query_empty (fun _ => 0)
             (fun _ => Monitor.WgCompleted 1 "" "No such device") "wg9"
             (Monitor.MState [] [] 0)).
    intros out err H. inversion H.
Defined.

(** ** C7: the reconnect sequence *)

(** C7 (counterexample). Deactivation and reactivation both succeed but
    [update_client_status] raises: the outer handler makes
    [_reconnect_client] return [False]. *)
Lemma reconnect_status_update_error_fails :
  fst (Reconnect.reconnect_client (Reconnect.ReconnectEnv true true true None None)) = false.
Proof. reflexivity. Qed.

(** C7 (amended). The outcome of [_reconnect_client] is
    "deactivation succeeded, reactivation succeeded and the status update
    did not raise", whatever the probe does (config unreadable, no address,
    ping failing or raising); a failed deactivation stops before any
    reactivation or status update, a failed reactivation stops before the
    status update. *)
Theorem reconnect_client_outcome :
  forall e : Reconnect.reconnect_env,
    fst (Reconnect.reconnect_client e)
      = Reconnect.deactivate_ok e && Reconnect.activate_ok e
        && negb (Reconnect.status_update_raises e)
    /\ (Reconnect.deactivate_ok e = false ->
        ~ In Reconnect.AActivate (snd (Reconnect.reconnect_client e))
        /\ ~ In Reconnect.AMarkActive (snd (Reconnect.reconnect_client e)))
    /\ (Reconnect.activate_ok e = false ->
        ~ In Reconnect.AMarkActive (snd (Reconnect.reconnect_client e))).
Proof.
  intros [[] [] [] cfg rc]; unfold Reconnect.reconnect_client; simpl;
    repeat split; intros; simpl in *; intuition discriminate.
Qed.

Lemma reconnect_client_outcome_witness :
  fst (Reconnect.reconnect_client (Reconnect.ReconnectEnv true true false None (Some 1))) = true
  /\ ~ In Reconnect.AActivate
       (snd (Reconnect.reconnect_client (Reconnect.ReconnectEnv false true false None None))).
Proof.
  split.
  - exact (proj1 (reconnect_client_outcome (Reconnect.ReconnectEnv true true false None (Some 1)))).
  - exact (proj1 (proj1 (proj2 (reconnect_client_outcome
                                  (Reconnect.ReconnectEnv false true false None None))) eq_refl)).
Defined.

(** ** The alert cooldown *)
Module MonitorFacts.
Import Monitor.

Lemma process_line_alerts : forall clock peers cp st line,
  match process_line clock peers cp st line with
  | LContinue _ _ st' | LAbort st' => last_alerts st' = last_alerts st
  end.
Proof.
  intros clock peers cp st line. unfold process_line, now_, set_handshake.
  destruct (startswith "peer: " line); [destruct (nth_error _ 1); reflexivity|].
  destruct (startswith "  latest handshake:" line); [|reflexivity].
  destruct (truthy cp); [|reflexivity].
  destruct (nth_error _ 1) as [hs|]; [|reflexivity].
  destruct (String.eqb hs "0"); [reflexivity|].
  destruct (parse_handshake hs); reflexivity.
Qed.

Lemma scan_lines_alerts : forall clock lines peers cp st,
  match scan_lines clock lines peers cp st with
  | LContinue _ _ st' | LAbort st' => last_alerts st' = last_alerts st
  end.
Proof.
  intros clock lines. induction lines as [|l ls IH]; intros peers cp st; simpl; [reflexivity|].
  pose proof (process_line_alerts clock peers cp st l) as H.
  destruct (process_line clock peers cp st l) as [p' c' st'|st']; [|exact H].
  specialize (IH p' c' st'). destruct (scan_lines clock ls p' c' st'); congruence.
Qed.

Lemma check_interface_alerts : forall clock wg_show interface st,
  last_alerts (snd (check_interface clock wg_show interface st)) = last_alerts st.
Proof.
  intros clock wg_show interface st. unfold check_interface.
  destruct (wg_show interface) as [|rc out err]; [reflexivity|].
  destruct (negb (rc =? 0)); [reflexivity|].
  pose proof (scan_lines_alerts clock (splitlines out) [] None st) as H.
  destruct (scan_lines clock (splitlines out) [] None st); exact H.
Qed.

Lemma sent_times_app : forall peer d1 d2,
  sent_times peer (app d1 d2) = app (sent_times peer d1) (sent_times peer d2).
Proof. intros. unfold sent_times. rewrite filter_app, map_app. reflexivity. Qed.

Lemma fop_snoc : forall (R : Z -> Z -> Prop) l x,
  ForallOrdPairs R l -> (forall t, In t l -> R t x) -> ForallOrdPairs R (app l [x]).
Proof.
  intros R l x. induction l as [|y l IH]; intros H Hx; simpl.
  - repeat constructor.
  - inversion H as [|y' l' Hy Hl]; subst. constructor.
    + apply Forall_app. split; [exact Hy|]. constructor; [apply Hx; left; reflexivity|constructor].
    + apply IH; [exact Hl|]. intros t Ht. apply Hx. right. exact Ht.
Qed.

Lemma sent_times_single : forall peer q t o,
  sent_times peer [Dispatch q t o]
  = if String.eqb q peer && match o with SendOk => true | _ => false end then [t] else [].
Proof.
  intros. unfold sent_times. simpl.
  destruct (String.eqb q peer && _); reflexivity.
Qed.

Lemma alert_peer_spacing : forall send now la pc peer ds,
  success_spacing peer la ds ->
  let (la', ds') := alert_peer send now la pc in success_spacing peer la' (app ds ds').
Proof.
  intros send now la [q conn] peer ds Hs. unfold alert_peer.
  destruct conn; [rewrite app_nil_r; exact Hs|].
  destruct (alert_due la q now) eqn:Hdue; [|rewrite app_nil_r; exact Hs].
  destruct Hs as [Hf Ha].
  destruct (send q); cbv beta iota; unfold success_spacing;
    rewrite !sent_times_app, !sent_times_single;
    [rewrite andb_true_r|rewrite andb_false_r, app_nil_r; split; assumption ..].
  destruct (String.eqb_spec q peer) as [->|Hne].
  - unfold alert_due in Hdue.
    assert (Hgap : forall t, In t (sent_times peer ds) -> now - t > ALERT_COOLDOWN).
    { intros t Ht. rewrite Forall_forall in Ha. destruct (Ha t Ht) as [l [Hl Ho]].
      rewrite Hl in Hdue. apply Z.gtb_lt in Hdue. unfold ALERT_COOLDOWN, USEC in *. lia. }
    split.
    + apply fop_snoc; [exact Hf|exact Hgap].
    + rewrite Forall_forall. intros t Ht. apply in_app_or in Ht.
      exists now. rewrite get_set_same. split; [reflexivity|].
      destruct Ht as [Ht|[<-|[]]]; [right; exact (Hgap t Ht)|left; reflexivity].
  - rewrite app_nil_r. split; [exact Hf|].
    rewrite Forall_forall in Ha |- *. intros t Ht.
    rewrite get_set_other by (intros E; apply Hne; symmetry; exact E). exact (Ha t Ht).
Qed.

Lemma alert_loop_spacing : forall send now peers la peer ds,
  success_spacing peer la ds ->
  let (la', ds') := alert_loop send now la peers in success_spacing peer la' (app ds ds').
Proof.
  intros send now peers. induction peers as [|pc rest IH]; intros la peer ds Hs; simpl.
  - rewrite app_nil_r. exact Hs.
  - pose proof (alert_peer_spacing send now la pc peer ds Hs) as H1.
    destruct (alert_peer send now la pc) as [la1 ds1].
    specialize (IH la1 peer (app ds ds1) H1).
    destruct (alert_loop send now la1 rest) as [la2 ds2].
    rewrite app_assoc. exact IH.
Qed.

Lemma run_checks_spacing : forall clock ticks st peer ds,
  success_spacing peer (last_alerts st) ds ->
  let (st', ds') := run_checks clock ticks st in
  success_spacing peer (last_alerts st') (app ds ds').
Proof.
  intros clock ticks. induction ticks as [|tk rest IH]; intros st peer ds Hs; simpl.
  - rewrite app_nil_r. exact Hs.
  - unfold check_and_alert.
    pose proof (check_interface_alerts clock (t_wg tk) (t_interface tk) st) as Hc.
    destruct (check_interface clock (t_wg tk) (t_interface tk) st) as [peers st1].
    simpl in Hc.
    pose proof (alert_loop_spacing (t_send tk) (clock (reads st1)) peers
                  (last_alerts st1) peer ds) as H1.
    rewrite <- Hc in Hs. specialize (H1 Hs). unfold now_. simpl.
    destruct (alert_loop (t_send tk) (clock (reads st1)) (last_alerts st1) peers) as [la ds1].
    specialize (IH (MState (last_handshakes st1) la (S (reads st1))) peer (app ds ds1) H1).
    destruct (run_checks clock rest (MState (last_handshakes st1) la (S (reads st1))))
      as [st2 ds2].
    rewrite app_assoc. exact IH.
Qed.

Lemma filter_all_false : forall (f : Z -> bool) l,
  (forall t, In t l -> f t = false) -> filter f l = [].
Proof.
  intros f l. induction l as [|x l IH]; intros H; simpl; [reflexivity|].
  rewrite (H x (or_introl eq_refl)). apply IH. intros t Ht. apply H. right. exact Ht.
Qed.

Lemma window_at_most_one : forall l (a : Z),
  ForallOrdPairs (fun t1 t2 => t2 - t1 > ALERT_COOLDOWN) l ->
  (length (filter (fun t : Z => ((a <=? t) && (t <=? a + ALERT_COOLDOWN))%Z) l) <= 1)%nat.
Proof.
  induction l as [|x l IH]; intros a H; simpl; [lia|].
  inversion H as [|x' l' Hx Hl]; subst.
  destruct ((a <=? x) && (x <=? a + ALERT_COOLDOWN)) eqn:Ex.
  - apply andb_prop in Ex. destruct Ex as [E1 E2]. apply Z.leb_le in E1.
    replace (filter (fun t : Z => ((a <=? t) && (t <=? a + ALERT_COOLDOWN))%Z) l) with (@nil Z);
      [simpl; lia|].
    symmetry. apply filter_all_false. intros t Ht.
    rewrite Forall_forall in Hx. specialize (Hx t Ht).
    apply andb_false_intro2. apply Z.leb_gt. lia.
  - exact (IH a Hl).
Qed.

End MonitorFacts.

(** ** The reconnection gate and the attempt tracking *)
Module ReconnectFacts.
Import Reconnect.

Lemma should_none : forall now cid s,
  dict_get cid s = None -> should_attempt_reconnection now cid s = (true, s).
Proof. intros now cid s H. unfold should_attempt_reconnection. rewrite H. reflexivity. Qed.

Lemma should_within_cooldown : forall now cid s a,
  dict_get cid s = Some a -> now - last_attempt a < RECONNECT_COOLDOWN ->
  should_attempt_reconnection now cid s = (false, s).
Proof.
  intros now cid s a H Hlt. unfold should_attempt_reconnection. rewrite H.
  unfold RECONNECT_COOLDOWN, Monitor.USEC in *.
  destruct (MAX_RECONNECT_ATTEMPTS <=? count a).
  - replace (now - last_attempt a >? 5 * 60 * 1000000) with false; [reflexivity|].
    symmetry. rewrite Z.gtb_ltb. apply Z.ltb_ge. lia.
  - replace (now - last_attempt a <? 5 * 60 * 1000000) with true; [reflexivity|].
    symmetry. apply Z.ltb_lt. exact Hlt.
Qed.

Lemma should_at_max : forall now cid s a,
  dict_get cid s = Some a -> MAX_RECONNECT_ATTEMPTS <= count a ->
  should_attempt_reconnection now cid s
  = if now - last_attempt a >? RECONNECT_COOLDOWN
    then (true, dict_set cid (Attempts 0 now None) s) else (false, s).
Proof.
  intros now cid s a H Hc. unfold should_attempt_reconnection. rewrite H.
  replace (MAX_RECONNECT_ATTEMPTS <=? count a) with true; [reflexivity|].
  symmetry. apply Z.leb_le. exact Hc.
Qed.

Lemma should_get_same : forall now cid s,
  dict_get cid (snd (should_attempt_reconnection now cid s)) = gate_effect now (dict_get cid s).
Proof.
  intros now cid s. unfold should_attempt_reconnection, gate_effect.
  destruct (dict_get cid s) as [a|] eqn:E; [|simpl; exact E].
  destruct (MAX_RECONNECT_ATTEMPTS <=? count a); simpl.
  - destruct (now - last_attempt a >? RECONNECT_COOLDOWN); simpl;
      [apply get_set_same | exact E].
  - destruct (now - last_attempt a <? RECONNECT_COOLDOWN); exact E.
Qed.

Lemma should_get_other : forall now cid cid' s,
  cid' <> cid ->
  dict_get cid' (snd (should_attempt_reconnection now cid s)) = dict_get cid' s.
Proof.
  intros now cid cid' s Hne. unfold should_attempt_reconnection.
  destruct (dict_get cid s) as [a|]; [|reflexivity].
  destruct (MAX_RECONNECT_ATTEMPTS <=? count a).
  - destruct (now - last_attempt a >? RECONNECT_COOLDOWN); simpl;
      [apply get_set_other; exact Hne | reflexivity].
  - destruct (now - last_attempt a <? RECONNECT_COOLDOWN); reflexivity.
Qed.

Lemma gate_effect_idem : forall now o, gate_effect now (gate_effect now o) = gate_effect now o.
Proof.
  intros now [a|]; [|reflexivity]. unfold gate_effect.
  destruct ((MAX_RECONNECT_ATTEMPTS <=? count a) && (now - last_attempt a >? RECONNECT_COOLDOWN)) eqn:E;
    simpl; [reflexivity|rewrite E; reflexivity].
Qed.

Lemma update_get_same : forall now cid success s,
  dict_get cid (update_reconnection_tracking now cid success s)
  = Some (match dict_get cid s with
          | Some a => if success then Attempts 0 now (Some now)
                      else Attempts (count a + 1) now (last_success a)
          | None => if success then Attempts 0 now (Some now) else Attempts 1 now None
          end).
Proof.
  intros now cid success s. unfold update_reconnection_tracking.
  rewrite mem_get. destruct (dict_get cid s) as [a|] eqn:E.
  - rewrite E. destruct success; apply get_set_same.
  - rewrite get_set_same. destruct success; apply get_set_same.
Qed.

Lemma update_get_other : forall now cid cid' success s,
  cid' <> cid ->
  dict_get cid' (update_reconnection_tracking now cid success s) = dict_get cid' s.
Proof.
  intros now cid cid' success s Hne. unfold update_reconnection_tracking.
  assert (Hs1 : dict_get cid' (if dict_mem cid s then s
                               else dict_set cid (Attempts 0 now None) s) = dict_get cid' s).
  { destruct (dict_mem cid s); [reflexivity|apply get_set_other; exact Hne]. }
  set (s1 := if dict_mem cid s then s else dict_set cid (Attempts 0 now None) s) in *.
  destruct (dict_get cid s1); [|exact Hs1].
  destruct success; rewrite get_set_other by exact Hne; exact Hs1.
Qed.

Lemma status_loop_state : forall now items s k,
  dict_get k (snd (status_loop now items s))
  = if existsb (String.eqb k) (map fst items) then gate_effect now (dict_get k s)
    else dict_get k s.
Proof.
  intros now items. induction items as [|[k0 a0] rest IH]; intros s k; simpl; [reflexivity|].
  destruct (should_attempt_reconnection now k0 s) as [can s1] eqn:E1.
  destruct (status_loop now rest s1) as [out s2] eqn:E2. simpl.
  specialize (IH s1 k). rewrite E2 in IH. simpl in IH. rewrite IH.
  assert (Hs1 := should_get_same now k0 s). assert (Ho := should_get_other now k0 k s).
  rewrite E1 in Hs1, Ho. simpl in Hs1, Ho.
  destruct (String.eqb_spec k k0) as [->|Hne]; simpl.
  - rewrite Hs1. destruct (existsb (String.eqb k0) (map fst rest));
      [apply gate_effect_idem|reflexivity].
  - rewrite (Ho Hne). reflexivity.
Qed.

Lemma should_true_bounded : forall now cid s s1,
  counts_bounded s -> should_attempt_reconnection now cid s = (true, s1) ->
  counts_bounded s1 /\
  (forall a, dict_get cid s1 = Some a -> count a < MAX_RECONNECT_ATTEMPTS).
Proof.
  intros now cid s s1 Hb H. unfold should_attempt_reconnection in H.
  destruct (dict_get cid s) as [a|] eqn:E.
  - destruct (MAX_RECONNECT_ATTEMPTS <=? count a) eqn:Ec.
    + destruct (now - last_attempt a >? RECONNECT_COOLDOWN); inversion H; subst; clear H.
      split.
      * intros k b Hk. destruct (String.eqb_spec k cid) as [->|Hne].
        -- rewrite get_set_same in Hk. inversion Hk. unfold MAX_RECONNECT_ATTEMPTS. simpl. lia.
        -- rewrite get_set_other in Hk by exact Hne. exact (Hb k b Hk).
      * intros b Hk. rewrite get_set_same in Hk. inversion Hk. unfold MAX_RECONNECT_ATTEMPTS. simpl. lia.
    + destruct (now - last_attempt a <? RECONNECT_COOLDOWN); inversion H; subst; clear H.
      split; [exact Hb|]. intros b Hk. rewrite E in Hk. inversion Hk; subst.
      apply Z.leb_gt. exact Ec.
  - inversion H; subst. split; [exact Hb|]. intros b Hk. rewrite E in Hk. discriminate.
Qed.

(** Reachable states keep every count at most [MAX_RECONNECT_ATTEMPTS]:
    the invariant holds for the empty dict and is kept by
    [handle_dns_change], by [get_reconnection_status] and by the clearing
    operations. *)
Lemma handle_dns_change_bounded : forall tg tu cid lk e s,
  counts_bounded s -> counts_bounded (snd (handle_dns_change tg tu cid lk e s)).
Proof.
  intros tg tu cid lk e s Hb. unfold handle_dns_change.
  destruct (should_attempt_reconnection tg cid s) as [ok s1] eqn:E.
  destruct ok; simpl.
  2:{ unfold should_attempt_reconnection in E. destruct (dict_get cid s) as [a|].
      - destruct (MAX_RECONNECT_ATTEMPTS <=? count a);
        [destruct (tg - last_attempt a >? RECONNECT_COOLDOWN)|
         destruct (tg - last_attempt a <? RECONNECT_COOLDOWN)]; inversion E; subst; exact Hb.
      - inversion E. }
  destruct (should_true_bounded tg cid s s1 Hb E) as [Hb1 Hlt].
  destruct lk; simpl; try exact Hb1.
  intros k b Hk. destruct (String.eqb_spec k cid) as [->|Hne].
  - rewrite update_get_same in Hk. inversion Hk; subst; clear Hk.
    destruct (dict_get cid s1) as [a|] eqn:Ea.
    + specialize (Hlt a eq_refl).
      destruct (fst (reconnect_client e)); simpl; unfold MAX_RECONNECT_ATTEMPTS in *; lia.
    + destruct (fst (reconnect_client e)); simpl; unfold MAX_RECONNECT_ATTEMPTS; lia.
  - rewrite update_get_other in Hk by exact Hne. exact (Hb1 k b Hk).
Qed.

Lemma status_bounded : forall now s,
  counts_bounded s -> counts_bounded (snd (get_reconnection_status now s)).
Proof.
  intros now s Hb k b Hk. unfold get_reconnection_status in Hk.
  rewrite status_loop_state in Hk.
  destruct (existsb (String.eqb k) (map fst s)); [|exact (Hb k b Hk)].
  unfold gate_effect in Hk. destruct (dict_get k s) as [a|] eqn:E; [|discriminate].
  destruct ((MAX_RECONNECT_ATTEMPTS <=? count a) && (now - last_attempt a >? RECONNECT_COOLDOWN));
    inversion Hk; subst; [unfold MAX_RECONNECT_ATTEMPTS; simpl; lia|exact (Hb k b E)].
Qed.

Lemma clear_bounded : forall cid s,
  counts_bounded s -> counts_bounded (clear_reconnection_history cid s).
Proof.
  intros cid s Hb k b Hk. unfold clear_reconnection_history in Hk.
  destruct (dict_mem cid s); [|exact (Hb k b Hk)].
  destruct (String.eqb_spec k cid) as [->|Hne].
  - rewrite get_del_same in Hk. discriminate.
  - rewrite get_del_other in Hk by exact Hne. exact (Hb k b Hk).
Qed.

Lemma handle_within_cooldown : forall now tu cid lk e s a,
  dict_get cid s = Some a -> now - last_attempt a < RECONNECT_COOLDOWN ->
  handle_dns_change now tu cid lk e s = (Returned false, s).
Proof.
  intros now tu cid lk e s a H Hlt. unfold handle_dns_change.
  rewrite (should_within_cooldown now cid s a H Hlt). reflexivity.
Qed.

Lemma get_existsb : forall {V} k (v : V) d,
  dict_get k d = Some v -> existsb (String.eqb k) (map fst d) = true.
Proof.
  intros V k v d H. apply existsb_exists. exists k. split.
  - apply (in_map fst d (k, v)). exact (get_In k v d H).
  - apply eqb_refl_s.
Qed.

End ReconnectFacts.

(** ** The change detector *)
Module DnsFacts.
Import Dns.

Lemma check_one_frame : forall now resolve s h' c,
  let (s', evs) := check_one now resolve s (h', c) in
  client_hostnames s' = client_hostnames s
  /\ (forall h, h <> h' -> dict_get h (resolved_ips s') = dict_get h (resolved_ips s)
                           /\ dict_get h (last_checks s') = dict_get h (last_checks s))
  /\ Forall (fun ev => c_hostname ev = h' /\ c_client_id ev = c) evs.
Proof.
  intros now resolve s h' c. unfold check_one.
  destruct (match dict_get h' (last_checks s) with
            | Some lc => now - lc <? DNS_CHECK_INTERVAL | None => false end).
  { split; [reflexivity|]. split; [intros; split; reflexivity|constructor]. }
  destruct (resolve h') as [ip|].
  2:{ split; [reflexivity|]. split; [intros; split; reflexivity|constructor]. }
  destruct (String.eqb ip "").
  { split; [reflexivity|]. split; [intros; split; reflexivity|constructor]. }
  simpl. split; [reflexivity|]. split.
  - intros h Hne. rewrite !get_set_other by exact Hne. split; reflexivity.
  - destruct (dict_get h' (resolved_ips s)) as [p|]; [|constructor].
    destruct (negb (String.eqb p "") && negb (String.eqb p ip));
      repeat constructor.
Qed.

Lemma check_one_self : forall now resolve s h c ip,
  match dict_get h (last_checks s) with
  | Some lc => DNS_CHECK_INTERVAL <= now - lc | None => True end ->
  resolve h = Some ip -> ip <> "" ->
  (forall p, dict_get h (resolved_ips s) = Some p -> p <> "") ->
  let (s', evs) := check_one now resolve s (h, c) in
  evs = match dict_get h (resolved_ips s) with
        | Some p => if String.eqb p ip then [] else [Change c h p ip now]
        | None => []
        end
  /\ dict_get h (resolved_ips s') = Some ip
  /\ dict_get h (last_checks s') = Some now.
Proof.
  intros now resolve s h c ip Hel Hr Hip Hp. unfold check_one.
  replace (match dict_get h (last_checks s) with
           | Some lc => now - lc <? DNS_CHECK_INTERVAL | None => false end) with false.
  2:{ destruct (dict_get h (last_checks s)); [|reflexivity].
      symmetry. apply Z.ltb_ge. exact Hel. }
  rewrite Hr. rewrite (eqb_neq_s ip "" Hip). simpl.
  split; [|split; apply get_set_same].
  destruct (dict_get h (resolved_ips s)) as [p|]; [|reflexivity].
  rewrite (eqb_neq_s p "" (Hp p eq_refl)). simpl.
  destruct (String.eqb p ip); reflexivity.
Qed.

Lemma check_loop_frame : forall now resolve items s h,
  ~ In h (map fst items) ->
  let (s', evs) := check_loop now resolve items s in
  dict_get h (resolved_ips s') = dict_get h (resolved_ips s)
  /\ dict_get h (last_checks s') = dict_get h (last_checks s)
  /\ filter (fun ev => String.eqb (c_hostname ev) h) evs = [].
Proof.
  intros now resolve items. induction items as [|[h' c] rest IH]; intros s h Hn; cbn [check_loop].
  { split; [reflexivity|split; reflexivity]. }
  assert (Hne : h <> h') by (intros ->; apply Hn; left; reflexivity).
  assert (Hn' : ~ In h (map fst rest)) by (intros Hi; apply Hn; right; exact Hi).
  pose proof (check_one_frame now resolve s h' c) as F.
  destruct (check_one now resolve s (h', c)) as [s1 e1].
  destruct F as [_ [Hf He]].
  specialize (IH s1 h Hn').
  destruct (check_loop now resolve rest s1) as [s2 e2].
  destruct IH as [R [L Fl]]. destruct (Hf h Hne) as [R1 L1].
  split; [congruence|]. split; [congruence|].
  rewrite filter_app, Fl, app_nil_r.
  induction He as [|ev evs [Hh _] _ IHe]; [reflexivity|].
  simpl. rewrite Hh, (eqb_neq_s h' h (not_eq_sym Hne)). exact IHe.
Qed.

Lemma check_loop_self : forall now resolve items s h c ip,
  NoDup (map fst items) -> dict_get h items = Some c ->
  match dict_get h (last_checks s) with
  | Some lc => DNS_CHECK_INTERVAL <= now - lc | None => True end ->
  resolve h = Some ip -> ip <> "" ->
  (forall p, dict_get h (resolved_ips s) = Some p -> p <> "") ->
  let (s', evs) := check_loop now resolve items s in
  filter (fun ev => String.eqb (c_hostname ev) h) evs
    = match dict_get h (resolved_ips s) with
      | Some p => if String.eqb p ip then [] else [Change c h p ip now]
      | None => []
      end
  /\ dict_get h (resolved_ips s') = Some ip
  /\ dict_get h (last_checks s') = Some now.
Proof.
  intros now resolve items. induction items as [|[h' c'] rest IH];
    intros s h c ip Hnd Hg Hel Hr Hip Hp; simpl in Hg; [discriminate|].
  cbn [check_loop]. inversion Hnd as [|x y Hnot Hnd']; subst.
  destruct (String.eqb_spec h h') as [<-|Hne].
  - injection Hg as ->.
    pose proof (check_one_self now resolve s h c ip Hel Hr Hip Hp) as S1.
    destruct (check_one now resolve s (h, c)) as [s1 e1].
    destruct S1 as [Ee [R1 L1]].
    pose proof (check_loop_frame now resolve rest s1 h Hnot) as F.
    destruct (check_loop now resolve rest s1) as [s2 e2].
    destruct F as [R2 [L2 Fl]].
    split; [|split; congruence].
    rewrite filter_app, Fl, app_nil_r, Ee.
    destruct (dict_get h (resolved_ips s)) as [p|]; [|reflexivity].
    destruct (String.eqb p ip); simpl; [reflexivity|]. rewrite eqb_refl_s. reflexivity.
  - pose proof (check_one_frame now resolve s h' c') as F.
    destruct (check_one now resolve s (h', c')) as [s1 e1].
    destruct F as [_ [Hf He]]. destruct (Hf h Hne) as [R1 L1].
    rewrite <- R1 in Hp |- *. rewrite <- L1 in Hel.
    specialize (IH s1 h c ip Hnd' Hg Hel Hr Hip Hp).
    destruct (check_loop now resolve rest s1) as [s2 e2].
    destruct IH as [Fl [R2 L2]].
    split; [|split; assumption].
    rewrite filter_app, Fl.
    replace (filter (fun ev => String.eqb (c_hostname ev) h) e1) with (@nil change);
      [reflexivity|].
    induction He as [|ev evs [Hh _] _ IHe]; [reflexivity|].
    simpl. rewrite Hh, (eqb_neq_s h' h (not_eq_sym Hne)). exact IHe.
Qed.

Lemma check_loop_events : forall now resolve items s,
  let (s', evs) := check_loop now resolve items s in
  client_hostnames s' = client_hostnames s
  /\ Forall (fun ev => In (c_hostname ev, c_client_id ev) items) evs.
Proof.
  intros now resolve items. induction items as [|[h' c] rest IH]; intros s; cbn [check_loop].
  { split; [reflexivity|constructor]. }
  pose proof (check_one_frame now resolve s h' c) as F.
  destruct (check_one now resolve s (h', c)) as [s1 e1].
  destruct F as [C1 [_ He]].
  specialize (IH s1). destruct (check_loop now resolve rest s1) as [s2 e2].
  destruct IH as [C2 Fe].
  split; [congruence|]. apply Forall_app. split.
  - eapply Forall_impl; [|exact He]. intros ev [-> ->]. left. reflexivity.
  - eapply Forall_impl; [|exact Fe]. intros ev Hi. right. exact Hi.
Qed.

Lemma fold_remove_hostnames : forall L s,
  client_hostnames (fold_left remove_hostname L s)
  = fold_left (fun d h => dict_del h d) L (client_hostnames s).
Proof.
  induction L as [|h L IH]; intros s; simpl; [reflexivity|]. rewrite IH. reflexivity.
Qed.

Lemma get_remove_opt : forall {V} h h0 (d : dict V),
  dict_get h (if dict_mem h0 d then dict_del h0 d else d)
  = if String.eqb h h0 then None else dict_get h d.
Proof.
  intros V h h0 d. destruct (String.eqb_spec h h0) as [->|Hne].
  - destruct (dict_mem h0 d) eqn:Hm; [apply get_del_same|apply get_none_mem; exact Hm].
  - destruct (dict_mem h0 d); [apply get_del_other; exact Hne|reflexivity].
Qed.

Lemma fold_remove_cache : forall L s h,
  dict_get h (resolved_ips (fold_left remove_hostname L s))
    = (if existsb (String.eqb h) L then None else dict_get h (resolved_ips s))
  /\ dict_get h (last_checks (fold_left remove_hostname L s))
    = (if existsb (String.eqb h) L then None else dict_get h (last_checks s)).
Proof.
  induction L as [|h0 L IH]; intros s h; simpl; [split; reflexivity|].
  destruct (IH (remove_hostname s h0) h) as [R L1]. rewrite R, L1. unfold remove_hostname. simpl.
  rewrite !get_remove_opt.
  destruct (String.eqb h h0); destruct (existsb (String.eqb h) L); simpl; split; reflexivity.
Qed.

Lemma in_fold_del : forall {V} L (d : dict V) x,
  In x (fold_left (fun d h => dict_del h d) L d) -> In x d /\ ~ In (fst x) L.
Proof.
  intros V L. induction L as [|h L IH]; intros d x Hx; simpl in Hx.
  - split; [exact Hx|intros []].
  - destruct (IH _ _ Hx) as [Hd Hn]. unfold dict_del in Hd.
    apply filter_In in Hd. destruct Hd as [Hd Hb].
    split; [exact Hd|]. intros [E|E]; [|exact (Hn E)].
    subst. rewrite eqb_refl_s in Hb. discriminate.
Qed.

Lemma in_dict_set : forall {V} k (v : V) d x, In x (dict_set k v d) -> x = (k, v) \/ In x d.
Proof.
  intros V k v d x. unfold dict_set. destruct (dict_mem k d).
  - intros Hx. apply in_map_iff in Hx. destruct Hx as [y [Hy Hin]].
    destruct (String.eqb k (fst y)); [left; congruence|right; congruence].
  - intros Hx. apply in_app_or in Hx. destruct Hx as [Hx|[Hx|[]]]; [right; exact Hx|left; congruence].
Qed.

Lemma unregister_hostnames : forall c s x,
  In x (client_hostnames (unregister_client_hostname c s)) ->
  In x (client_hostnames s) /\ snd x <> c.
Proof.
  intros c s x Hx. unfold unregister_client_hostname in Hx. simpl in Hx.
  rewrite fold_remove_hostnames in Hx. apply in_fold_del in Hx. destruct Hx as [Hin Hn].
  split; [exact Hin|]. intros Hc. apply Hn. apply in_map. apply filter_In.
  split; [exact Hin|]. rewrite Hc. apply eqb_refl_s.
Qed.

Lemma map_fst_replace : forall {V} k (v : V) d,
  map fst (map (fun kv => if String.eqb k (fst kv) then (k, v) else kv) d) = map fst d.
Proof.
  intros V k v d. induction d as [|[k0 v0] d IH]; simpl; [reflexivity|].
  rewrite IH. destruct (String.eqb_spec k k0) as [->|_]; reflexivity.
Qed.

Lemma nodup_set : forall {V} k (v : V) d,
  NoDup (map fst d) -> NoDup (map fst (dict_set k v d)).
Proof.
  intros V k v d Hnd. unfold dict_set. destruct (dict_mem k d) eqn:Hm.
  - rewrite map_fst_replace. exact Hnd.
  - rewrite map_app. simpl. apply NoDup_app; [exact Hnd|repeat constructor; intros []|].
    intros x Hx [E|[]]. subst x.
    unfold dict_mem in Hm. assert (existsb (fun kv => String.eqb k (fst kv)) d = true).
    { apply existsb_exists. apply in_map_iff in Hx. destruct Hx as [[k1 v1] [E Hin]].
      exists (k1, v1). split; [exact Hin|]. simpl in *. subst. apply eqb_refl_s. }
    congruence.
Qed.

Lemma nodup_filter_fst : forall {V} (f : string * V -> bool) d,
  NoDup (map fst d) -> NoDup (map fst (filter f d)).
Proof.
  intros V f d. induction d as [|x d IH]; simpl; intros Hnd; [constructor|].
  inversion Hnd as [|y z Hn Hnd']; subst.
  destruct (f x); simpl; [|exact (IH Hnd')].
  constructor; [|exact (IH Hnd')].
  intros Hi. apply Hn. apply in_map_iff in Hi. destruct Hi as [w [E Hw]].
  apply filter_In in Hw. rewrite <- E. apply in_map. exact (proj1 Hw).
Qed.

Lemma nodup_fold_del : forall {V} L (d : dict V),
  NoDup (map fst d) -> NoDup (map fst (fold_left (fun d h => dict_del h d) L d)).
Proof.
  intros V L. induction L as [|h L IH]; intros d Hd; simpl; [exact Hd|].
  apply IH. apply nodup_filter_fst. exact Hd.
Qed.

Lemma check_loop_reachable : forall now resolve items s,
  dns_reachable s -> dns_reachable (fst (check_loop now resolve items s)).
Proof.
  intros now resolve items. induction items as [|[h c] rest IH]; intros s Hr; [exact Hr|].
  cbn [check_loop].
  assert (H1 : dns_reachable (fst (check_one now resolve s (h, c)))).
  { unfold check_one.
    destruct (match dict_get h (last_checks s) with
              | Some lc => now - lc <? DNS_CHECK_INTERVAL | None => false end); [exact Hr|].
    destruct (resolve h) as [ip|]; [|exact Hr].
    destruct (String.eqb ip "") eqn:Eip; [exact Hr|].
    destruct Hr as [Hnd Hne]. split; [exact Hnd|]. simpl.
    intros h' p Hp. destruct (String.eqb_spec h' h) as [->|Hneq].
    - rewrite get_set_same in Hp. injection Hp as <-. apply String.eqb_neq. exact Eip.
    - rewrite get_set_other in Hp by exact Hneq. exact (Hne h' p Hp). }
  destruct (check_one now resolve s (h, c)) as [s1 e1].
  specialize (IH s1 H1). destruct (check_loop now resolve rest s1) as [s2 e2]. exact IH.
Qed.

Lemma run_dns_reachable : forall ops s,
  dns_reachable s -> dns_reachable (fst (run_dns ops s)).
Proof.
  induction ops as [|op ops IH]; intros s Hr; [exact Hr|].
  destruct op as [now resolve|c h n|c]; cbn [run_dns].
  - pose proof (check_loop_reachable now resolve (client_hostnames s) s Hr) as H1.
    unfold check_hostname_changes.
    destruct (check_loop now resolve (client_hostnames s) s) as [s1 e1].
    specialize (IH s1 H1). destruct (run_dns ops s1) as [s2 e2]. exact IH.
  - apply IH. destruct Hr as [Hnd Hne]. split; [apply nodup_set; exact Hnd|exact Hne].
  - apply IH. destruct Hr as [Hnd Hne]. unfold unregister_client_hostname. split; simpl.
    + rewrite fold_remove_hostnames. apply nodup_fold_del. exact Hnd.
    + intros h p Hp. destruct (fold_remove_cache
        (map fst (filter (fun hc => String.eqb (snd hc) c) (client_hostnames s))) s h) as [R _].
      rewrite R in Hp. destruct (existsb _ _); [discriminate|exact (Hne h p Hp)].
Qed.

End DnsFacts.

(** ** C3: change events *)

(** C3. For a registered hostname that is due this tick (no last check, or
    the last check at least [DNS_CHECK_INTERVAL] ago) and that resolves to
    an address, [check_hostname_changes] emits, among its events for that
    hostname, exactly one [{previous_ip = A, current_ip = B}] event when an
    address [A] different from the new address [B] was stored, and none when
    no address was stored or the same one was; the stored address becomes
    the new one and the last check becomes this tick. (The hypotheses on
    distinct keys and non-empty stored addresses hold in every reachable
    state, see [DnsFacts.run_dns_reachable].) *)
Theorem check_hostname_changes_events :
  forall now resolve s hostname client_id ip,
    NoDup (map fst (Dns.client_hostnames s)) ->
    (forall p, dict_get hostname (Dns.resolved_ips s) = Some p -> p <> "") ->
    dict_get hostname (Dns.client_hostnames s) = Some client_id ->
    match dict_get hostname (Dns.last_checks s) with
    | Some lc => Dns.DNS_CHECK_INTERVAL <= now - lc
    | None => True
    end ->
    resolve hostname = Some ip -> ip <> "" ->
    let (s', evs) := Dns.check_hostname_changes now resolve s in
    filter (fun ev => String.eqb (Dns.c_hostname ev) hostname) evs
      = match dict_get hostname (Dns.resolved_ips s) with
        | Some prev => if String.eqb prev ip then []
                       else [Dns.Change client_id hostname prev ip now]
        | None => []
        end
    /\ dict_get hostname (Dns.resolved_ips s') = Some ip
    /\ dict_get hostname (Dns.last_checks s') = Some now.
Proof.
  intros now resolve s hostname client_id ip Hnd Hp Hg Hel Hr Hip.
  unfold Dns.check_hostname_changes.
  exact (DnsFacts.check_loop_self now resolve (Dns.client_hostnames s) s hostname client_id ip
           Hnd Hg Hel Hr Hip Hp).
Qed.

Lemma check_hostname_changes_events_witness :
  filter (fun ev => String.eqb (Dns.c_hostname ev) "h")
         (snd (Dns.check_hostname_changes 7 (fun _ => Some "2.2.2.2") Dns.dns_s0))
  = [Dns.Change "c" "h" "1.1.1.1" "2.2.2.2" 7].
Proof.
  pose proof (check_hostname_changes_events 7 (fun _ => Some "2.2.2.2") Dns.dns_s0 "h" "c" "2.2.2.2")
    as T.
  destruct (Dns.check_hostname_changes 7 (fun _ => Some "2.2.2.2") Dns.dns_s0) as [s' evs].
  destruct T as [F _].
  - repeat constructor. intros [].
  - intros p Hp. vm_compute in Hp. injection Hp as <-. discriminate.
  - reflexivity.
  - exact I.
  - reflexivity.
  - discriminate.
  - exact F.
Defined.

(** ** C8: unregistering a client *)

(** C8. After [unregister_client_hostname cid], no hostname is mapped to
    [cid], every hostname that was mapped to [cid] has no stored address
    and no last check, and as long as no new registration is made for
    [cid], no later [check_hostname_changes] (with any other
    registrations, unregistrations, clocks and DNS answers in between)
    emits an event for [cid]. *)
Theorem unregister_client_hostname_forgets :
  forall cid s,
    let s1 := Dns.unregister_client_hostname cid s in
    (forall h, ~ In (h, cid) (Dns.client_hostnames s1))
    /\ (forall h, In (h, cid) (Dns.client_hostnames s) ->
          dict_get h (Dns.resolved_ips s1) = None /\ dict_get h (Dns.last_checks s1) = None)
    /\ (forall ops,
          Forall (fun op => match op with Dns.OpRegister c _ _ => c <> cid | _ => True end) ops ->
          Forall (fun ev => Dns.c_client_id ev <> cid) (snd (Dns.run_dns ops s1))).
Proof.
  intros cid s s1. unfold s1. clear s1.
  assert (Hnone : forall h, ~ In (h, cid) (Dns.client_hostnames (Dns.unregister_client_hostname cid s))).
  { intros h Hin. apply DnsFacts.unregister_hostnames in Hin. destruct Hin as [_ Hc].
    apply Hc. reflexivity. }
  split; [exact Hnone|]. split.
  - intros h Hin. unfold Dns.unregister_client_hostname. simpl.
    set (L := map fst (filter (fun hc => String.eqb (snd hc) cid) (Dns.client_hostnames s))).
    assert (HL : existsb (String.eqb h) L = true).
    { apply existsb_exists. exists h. split; [|apply eqb_refl_s].
      unfold L. apply (in_map fst _ (h, cid)). apply filter_In. split; [exact Hin|apply eqb_refl_s]. }
    destruct (DnsFacts.fold_remove_cache L s h) as [R C]. rewrite R, C, HL. split; reflexivity.
  - intros ops. generalize (Dns.unregister_client_hostname cid s) Hnone. clear Hnone.
    induction ops as [|op ops IH]; intros st Hst Hops; [constructor|].
    inversion Hops as [|x y Hop Hops']; subst.
    destruct op as [now resolve|c h n|c]; cbn [Dns.run_dns].
    + unfold Dns.check_hostname_changes.
      pose proof (DnsFacts.check_loop_events now resolve (Dns.client_hostnames st) st) as E.
      destruct (Dns.check_loop now resolve (Dns.client_hostnames st) st) as [st1 e1].
      destruct E as [Ch Fe].
      assert (Hst1 : forall h, ~ In (h, cid) (Dns.client_hostnames st1)) by (rewrite Ch; exact Hst).
      specialize (IH st1 Hst1 Hops'). destruct (Dns.run_dns ops st1) as [st2 e2].
      cbn [snd] in *. apply Forall_app. split; [|exact IH].
      eapply Forall_impl; [|exact Fe]. intros ev Hin Hc.
      apply (Hst (Dns.c_hostname ev)). rewrite <- Hc. exact Hin.
    + apply IH; [|exact Hops']. intros h' Hin. simpl in Hin.
      apply DnsFacts.in_dict_set in Hin. destruct Hin as [E|Hin].
      * injection E as _ E. exact (Hop (eq_sym E)).
      * exact (Hst h' Hin).
    + apply IH; [|exact Hops']. intros h' Hin.
      apply DnsFacts.unregister_hostnames in Hin. exact (Hst h' (proj1 Hin)).
Qed.

Lemma unregister_client_hostname_forgets_witness :
  Forall (fun ev => Dns.c_client_id ev <> "c")
    (snd (Dns.run_dns [Dns.OpCheck 7 (fun _ => Some "2.2.2.2");
                       Dns.OpRegister "d" "h" None;
                       Dns.OpCheck 900000000 (fun _ => Some "3.3.3.3")]
                      (Dns.unregister_client_hostname "c" Dns.dns_s0))).
Proof.
  apply (proj2 (proj2 (unregister_client_hostname_forgets "c" Dns.dns_s0))).
  repeat constructor; discriminate.
Defined.

(** ** C4: deduplicated disconnect alerts *)

(** C4. For a peer in the result of [check_interface], [check_and_alert]
    calls the alert dispatcher exactly when the peer is classified
    disconnected and no last alert is recorded for it or the recorded one
    is more than [ALERT_COOLDOWN] old; the last-alert time of the peer
    becomes the poll time only when the dispatch returns [True] (a [False]
    or an exception leaves it), and no other peer's entry changes. Hence,
    over any sequence of polls, successful alerts for a peer are more than
    [ALERT_COOLDOWN] apart: any window of length [ALERT_COOLDOWN] holds at
    most one. *)
Theorem check_and_alert_cooldown :
  (forall send now la peer is_connected,
     let (la', ds) := Monitor.alert_peer send now la (peer, is_connected) in
     (ds <> [] <-> is_connected = false /\ Monitor.alert_due la peer now = true)
     /\ dict_get peer la'
        = (if negb is_connected && Monitor.alert_due la peer now
              && match send peer with Monitor.SendOk => true | _ => false end
           then Some now else dict_get peer la)
     /\ (forall q, q <> peer -> dict_get q la' = dict_get q la))
  /\ (forall clock ticks st peer (a : Z),
        (length (filter (fun t : Z => ((a <=? t) && (t <=? a + Monitor.ALERT_COOLDOWN))%Z)
                        (Monitor.sent_times peer (snd (Monitor.run_checks clock ticks st))))
         <= 1)%nat).
Proof.
  split.
  - intros send now la peer is_connected. unfold Monitor.alert_peer.
    destruct is_connected; simpl.
    { split; [split; [intros H; exfalso; apply H; reflexivity|intros [H _]; discriminate]|].
      split; reflexivity. }
    destruct (Monitor.alert_due la peer now) eqn:Hdue; simpl.
    + destruct (send peer); simpl;
        (split; [split; [intros _; split; reflexivity|intros _; discriminate]|]);
        (split; [try apply get_set_same; reflexivity|]);
        intros q Hq; try reflexivity; apply get_set_other; exact Hq.
    + split; [split; [intros H; exfalso; apply H; reflexivity|intros [_ H]; discriminate]|].
      split; reflexivity.
  - intros clock ticks st peer a.
    assert (H0 : Monitor.success_spacing peer (Monitor.last_alerts st) []).
    { split; constructor. }
    pose proof (MonitorFacts.run_checks_spacing clock ticks st peer [] H0) as H.
    destruct (Monitor.run_checks clock ticks st) as [st' ds]. simpl in H |- *.
    apply MonitorFacts.window_at_most_one. exact (proj1 H).
Qed.

Lemma check_and_alert_cooldown_witness :
  dict_get "P" (fst (Monitor.alert_peer (fun _ => Monitor.SendFailed) 5 [("P", 1)] ("P", false)))
  = Some 1.
Proof.
  pose proof (proj1 check_and_alert_cooldown (fun _ => Monitor.SendFailed) 5 [("P", 1)] "P" false)
    as H.
  destruct (Monitor.alert_peer (fun _ => Monitor.SendFailed) 5 [("P", 1)] ("P", false))
    as [la' ds] eqn:E.
  destruct H as [_ [Hg _]]. simpl. rewrite Hg. reflexivity.
Defined.

(** ** C2: the reconnection gate *)

(** C2. [_should_attempt_reconnection] allows a client with no record;
    denies any call less than [RECONNECT_COOLDOWN] after the recorded last
    attempt, whatever the count; once the count has reached
    [MAX_RECONNECT_ATTEMPTS] it allows (and resets the record to count 0,
    last attempt now) exactly when more than [RECONNECT_COOLDOWN] has
    passed since the last attempt. After such a reset, [handle_dns_change]
    makes one attempt (when the client is in the store), leaves a record
    with a count below the maximum and a last attempt at the time of that
    attempt, and any further [handle_dns_change] for the client less than
    [RECONNECT_COOLDOWN] after it is denied. *)
Theorem should_attempt_reconnection_gate :
  (forall now cid s, dict_get cid s = None ->
     Reconnect.should_attempt_reconnection now cid s = (true, s))
  /\ (forall now cid s a, dict_get cid s = Some a ->
        now - Reconnect.last_attempt a < Reconnect.RECONNECT_COOLDOWN ->
        fst (Reconnect.should_attempt_reconnection now cid s) = false)
  /\ (forall now cid s a, dict_get cid s = Some a ->
        Reconnect.MAX_RECONNECT_ATTEMPTS <= Reconnect.count a ->
        Reconnect.should_attempt_reconnection now cid s
        = if now - Reconnect.last_attempt a >? Reconnect.RECONNECT_COOLDOWN
          then (true, dict_set cid (Reconnect.Attempts 0 now None) s)
          else (false, s))
  /\ (forall t0 t1 t2 t3 cid lk lk' e e' s a r1 s1,
        dict_get cid s = Some a ->
        Reconnect.MAX_RECONNECT_ATTEMPTS <= Reconnect.count a ->
        t0 - Reconnect.last_attempt a > Reconnect.RECONNECT_COOLDOWN ->
        Reconnect.handle_dns_change t0 t1 cid lk e s = (r1, s1) ->
        exists a1, dict_get cid s1 = Some a1
          /\ Reconnect.count a1 < Reconnect.MAX_RECONNECT_ATTEMPTS
          /\ (lk = Reconnect.ClientFound ->
              r1 = Reconnect.Returned true /\ Reconnect.last_attempt a1 = t1)
          /\ (t2 - Reconnect.last_attempt a1 < Reconnect.RECONNECT_COOLDOWN ->
              fst (Reconnect.handle_dns_change t2 t3 cid lk' e' s1)
              = Reconnect.Returned false)).
Proof.
  split; [exact ReconnectFacts.should_none|].
  split.
  { intros now cid s a H Hlt. rewrite (ReconnectFacts.should_within_cooldown now cid s a H Hlt).
    reflexivity. }
  split; [exact ReconnectFacts.should_at_max|].
  intros t0 t1 t2 t3 cid lk lk' e e' s a r1 s1 Ha Hc Ht Hh.
  unfold Reconnect.handle_dns_change in Hh.
  rewrite (ReconnectFacts.should_at_max t0 cid s a Ha Hc) in Hh.
  replace (t0 - Reconnect.last_attempt a >? Reconnect.RECONNECT_COOLDOWN) with true in Hh
    by (symmetry; rewrite Z.gtb_ltb; apply Z.ltb_lt; lia).
  simpl in Hh.
  destruct lk; inversion Hh; subst; clear Hh.
  - set (ok := fst (Reconnect.reconnect_client e)).
    exists (if ok then Reconnect.Attempts 0 t1 (Some t1) else Reconnect.Attempts 1 t1 None).
    rewrite ReconnectFacts.update_get_same, get_set_same. simpl.
    split; [destruct ok; reflexivity|].
    split; [destruct ok; unfold Reconnect.MAX_RECONNECT_ATTEMPTS; simpl; lia|].
    split; [intros _; split; [reflexivity|destruct ok; reflexivity]|].
    intros Hlt. erewrite ReconnectFacts.handle_within_cooldown; [reflexivity| |exact Hlt].
    rewrite ReconnectFacts.update_get_same, get_set_same. destruct ok; reflexivity.
  - exists (Reconnect.Attempts 0 t0 None). rewrite get_set_same.
    split; [reflexivity|]. split; [unfold Reconnect.MAX_RECONNECT_ATTEMPTS; simpl; lia|].
    split; [discriminate|].
    intros Hlt. erewrite ReconnectFacts.handle_within_cooldown;
      [reflexivity|apply get_set_same|exact Hlt].
  - exists (Reconnect.Attempts 0 t0 None). rewrite get_set_same.
    split; [reflexivity|]. split; [unfold Reconnect.MAX_RECONNECT_ATTEMPTS; simpl; lia|].
    split; [discriminate|].
    intros Hlt. erewrite ReconnectFacts.handle_within_cooldown;
      [reflexivity|apply get_set_same|exact Hlt].
Qed.

Lemma should_attempt_reconnection_gate_witness :
  (fst (Reconnect.should_attempt_reconnection 10 "c" [("c", Reconnect.Attempts 1 0 None)]) = false
   /\ Reconnect.should_attempt_reconnection (Reconnect.RECONNECT_COOLDOWN + 1) "c"
        [("c", Reconnect.Attempts 3 0 None)]
      = (true, [("c", Reconnect.Attempts 0 (Reconnect.RECONNECT_COOLDOWN + 1) None)]))
  /\ exists a1, dict_get "c" (snd (Reconnect.handle_dns_change (Reconnect.RECONNECT_COOLDOWN + 1)
                                 (Reconnect.RECONNECT_COOLDOWN + 3) "c" Reconnect.ClientFound
                                 (Reconnect.ReconnectEnv false true false None None)
                                 [("c", Reconnect.Attempts 3 0 None)])) = Some a1
             /\ Reconnect.count a1 < Reconnect.MAX_RECONNECT_ATTEMPTS.
Proof.
  split; [split|].
  - apply (proj1 (proj2 should_attempt_reconnection_gate) 10 "c"
             [("c", Reconnect.Attempts 1 0 None)] (Reconnect.Attempts 1 0 None)).
    + reflexivity.
    + vm_compute. reflexivity.
  - rewrite (proj1 (proj2 (proj2 should_attempt_reconnection_gate))
               (Reconnect.RECONNECT_COOLDOWN + 1) "c" [("c", Reconnect.Attempts 3 0 None)]
               (Reconnect.Attempts 3 0 None)).
    + vm_compute. reflexivity.
    + reflexivity.
    + vm_compute. discriminate.
  - destruct (proj2 (proj2 (proj2 should_attempt_reconnection_gate))
                (Reconnect.RECONNECT_COOLDOWN + 1) (Reconnect.RECONNECT_COOLDOWN + 3) 0 0 "c"
                Reconnect.ClientFound Reconnect.ClientFound
                (Reconnect.ReconnectEnv false true false None None)
                (Reconnect.ReconnectEnv false true false None None)
                [("c", Reconnect.Attempts 3 0 None)] (Reconnect.Attempts 3 0 None)
                (Reconnect.Returned true) [("c", Reconnect.Attempts 1 (Reconnect.RECONNECT_COOLDOWN + 3) None)])
      as [a1 [Hg [Hc _]]].
    + reflexivity.
    + vm_compute. discriminate.
    + vm_compute. reflexivity.
    + vm_compute. reflexivity.
    + exists a1. split; [|exact Hc]. vm_compute. vm_compute in Hg. exact Hg.
Defined.

(** ** C6: the attempt tracking after a reconnect *)

(** C6. When [handle_dns_change] makes an attempt (it returns [True]), the
    tracking update leaves the client's record with last attempt [t_update]
    and: on success count 0 and last success [t_update]; on failure a count
    one more than the count stored just before the update (the state after
    the gate, 0 when there was no record). Every other client's record is
    the one it had before the call. *)
Theorem handle_dns_change_tracking :
  forall tg tu cid lk e s s',
    Reconnect.handle_dns_change tg tu cid lk e s = (Reconnect.Returned true, s') ->
    let before := snd (Reconnect.should_attempt_reconnection tg cid s) in
    (exists a', dict_get cid s' = Some a'
       /\ Reconnect.last_attempt a' = tu
       /\ (fst (Reconnect.reconnect_client e) = true ->
           Reconnect.count a' = 0 /\ Reconnect.last_success a' = Some tu)
       /\ (fst (Reconnect.reconnect_client e) = false ->
           Reconnect.count a' = match dict_get cid before with
                                | Some a => Reconnect.count a
                                | None => 0
                                end + 1))
    /\ (forall cid', cid' <> cid -> dict_get cid' s' = dict_get cid' s).
Proof.
  intros tg tu cid lk e s s' H before. unfold before. clear before.
  unfold Reconnect.handle_dns_change in H.
  destruct (Reconnect.should_attempt_reconnection tg cid s) as [ok s1] eqn:E.
  simpl. destruct ok; simpl in H; [|discriminate].
  destruct lk; inversion H; subst; clear H.
  split.
  - rewrite ReconnectFacts.update_get_same.
    destruct (dict_get cid s1) as [a|];
      destruct (fst (Reconnect.reconnect_client e)) eqn:Eok;
      eexists; (split; [reflexivity|]); simpl;
      repeat split; try discriminate; reflexivity.
  - intros cid' Hne. rewrite ReconnectFacts.update_get_other by exact Hne.
    assert (Ho := ReconnectFacts.should_get_other tg cid cid' s Hne).
    rewrite E in Ho. exact Ho.
Qed.

Lemma handle_dns_change_tracking_witness :
  dict_get "c" (snd (Reconnect.handle_dns_change 0 5 "c" Reconnect.ClientFound
                       (Reconnect.ReconnectEnv false true false None None) []))
  = Some (Reconnect.Attempts 1 5 None).
Proof.
  destruct (handle_dns_change_tracking 0 5 "c" Reconnect.ClientFound
              (Reconnect.ReconnectEnv false true false None None) []
              [("c", Reconnect.Attempts 1 5 None)]) as [[a' [Hg [Hl [_ Hf]]]] _].
  - vm_compute. reflexivity.
  - vm_compute. reflexivity.
Defined.

(** ** C10: the status query writes *)

(** C10. In a reachable state (every count at most
    [MAX_RECONNECT_ATTEMPTS]), [get_reconnection_status] leaves each client
    whose count equals [MAX_RECONNECT_ATTEMPTS] and whose last attempt is
    more than [RECONNECT_COOLDOWN] before the query with the record
    count 0, last attempt the query time (and no last success), and leaves
    the record of every other client as it was. *)
Theorem get_reconnection_status_resets :
  forall now s, Reconnect.counts_bounded s ->
    forall cid,
      dict_get cid (snd (Reconnect.get_reconnection_status now s))
      = match dict_get cid s with
        | Some a =>
            if (Reconnect.count a =? Reconnect.MAX_RECONNECT_ATTEMPTS)
               && (now - Reconnect.last_attempt a >? Reconnect.RECONNECT_COOLDOWN)
            then Some (Reconnect.Attempts 0 now None) else Some a
        | None => None
        end.
Proof.
  intros now s Hb cid. unfold Reconnect.get_reconnection_status.
  rewrite ReconnectFacts.status_loop_state.
  destruct (dict_get cid s) as [a|] eqn:E.
  - rewrite (ReconnectFacts.get_existsb cid a s E). unfold Reconnect.gate_effect.
    specialize (Hb cid a E). unfold Reconnect.MAX_RECONNECT_ATTEMPTS in *.
    destruct (Z.eqb_spec (Reconnect.count a) 3); destruct (Z.leb_spec 3 (Reconnect.count a));
      try lia; reflexivity.
  - destruct (existsb (String.eqb cid) (map fst s)); reflexivity.
Qed.

Lemma get_reconnection_status_resets_witness :
  dict_get "c" (snd (Reconnect.get_reconnection_status (Reconnect.RECONNECT_COOLDOWN + 1)
                       [("c", Reconnect.Attempts 3 0 None); ("d", Reconnect.Attempts 3 5 None)]))
  = Some (Reconnect.Attempts 0 (Reconnect.RECONNECT_COOLDOWN + 1) None).
Proof.
  rewrite (get_reconnection_status_resets (Reconnect.RECONNECT_COOLDOWN + 1)
             [("c", Reconnect.Attempts 3 0 None); ("d", Reconnect.Attempts 3 5 None)]).
  - vm_compute. reflexivity.
  - intros k b Hk. simpl in Hk.
    destruct (String.eqb k "c"); [injection Hk as <-; vm_compute; discriminate|].
    destruct (String.eqb k "d"); [injection Hk as <-; vm_compute; discriminate|discriminate].
Defined.

Module StrFacts.

Lemma list_ascii_app : forall a b,
  list_ascii_of_string (a ++ b) = app (list_ascii_of_string a) (list_ascii_of_string b).
Proof. induction a as [|c a IH]; intros b; simpl; [reflexivity|rewrite IH; reflexivity]. Qed.

Lemma prefix_strip : forall n h,
  String.prefix n h = false ->
  Reconnect.strip_prefix (list_ascii_of_string n) (list_ascii_of_string h) = None.
Proof.
  induction n as [|c n IH]; intros h H; [destruct h; simpl in H; discriminate|].
  destruct h as [|c' h]; simpl in *; [reflexivity|].
  destruct (Ascii.ascii_dec c c') as [E|Hne].
  - subst c'. rewrite Ascii.eqb_refl. apply IH. exact H.
  - replace (Ascii.eqb c c') with false; [reflexivity|].
    symmetry. apply Ascii.eqb_neq. exact Hne.
Qed.

Lemma strip_prefix_app_nl : forall p t c R r,
  Reconnect.strip_prefix p (app t (c :: R)) = Some r -> ~ In c p ->
  exists r', Reconnect.strip_prefix p t = Some r'.
Proof.
  induction p as [|x p IH]; intros t c R r H Hc; simpl in *.
  - exists t. reflexivity.
  - destruct t as [|y t]; simpl in H.
    + destruct (Ascii.eqb_spec x c) as [->|]; [exfalso; apply Hc; left; reflexivity|discriminate].
    + destruct (Ascii.eqb x y); [|discriminate].
      exact (IH t c R r H (fun Hi => Hc (or_intror Hi))).
Qed.

Lemma py_in_cons : forall n x s,
  py_in n (String x s) = if String.prefix n (String x s) then true else py_in n s.
Proof. reflexivity. Qed.

Section Search.
(** A leftmost-match search built from a matcher [m] that only matches
    where the keyword [kw] starts. *)
Variable kw : string.
Variable m : list ascii -> option (list ascii).
Variable search : list ascii -> option (list ascii).
Hypothesis search_eq : forall l,
  search l = match m l with
             | Some g => Some g
             | None => match l with [] => None | _ :: t => search t end
             end.
Hypothesis m_kw : forall l g, m l = Some g ->
  exists r, Reconnect.strip_prefix (list_ascii_of_string kw) l = Some r.
Variable c : ascii.
Hypothesis c_not_kw : ~ In c (list_ascii_of_string kw).
Hypothesis kw_head : exists x t, kw = String x t /\ x <> c.

Lemma search_after_line : forall pre R,
  py_in kw pre = false ->
  search (app (list_ascii_of_string pre) (c :: R)) = search R.
Proof.
  induction pre as [|x pre IH]; intros R Hin.
  - simpl. rewrite search_eq.
    destruct (m (c :: R)) as [g|] eqn:E; [|reflexivity].
    destruct (m_kw _ _ E) as [r Hr]. destruct kw_head as [x [t [-> Hx]]].
    simpl in Hr. destruct (Ascii.eqb_spec x c); [contradiction|discriminate].
  - rewrite py_in_cons in Hin.
    destruct (String.prefix kw (String x pre)) eqn:Ep; [discriminate|].
    simpl. rewrite search_eq.
    destruct (m (x :: app (list_ascii_of_string pre) (c :: R))) as [g|] eqn:E.
    + exfalso. destruct (m_kw _ _ E) as [r Hr].
      change (x :: app (list_ascii_of_string pre) (c :: R))
        with (app (list_ascii_of_string (String x pre)) (c :: R)) in Hr.
      destruct (strip_prefix_app_nl _ _ _ _ _ Hr c_not_kw) as [r' Hr'].
      rewrite (prefix_strip _ _ Ep) in Hr'. discriminate.
    + apply IH. exact Hin.
Qed.

End Search.

Lemma drop_spaces_id : forall l, Forall (fun c => is_space c = false) l -> drop_spaces l = l.
Proof.
  intros l H. destruct l as [|c t]; [reflexivity|].
  inversion H; subst. simpl. rewrite H2. reflexivity.
Qed.

Lemma strip_no_space : forall l, Forall (fun c => is_space c = false) l ->
  strip (string_of_list_ascii l) = string_of_list_ascii l.
Proof.
  intros l H. unfold strip. rewrite list_ascii_of_string_of_list_ascii.
  rewrite (drop_spaces_id l H). rewrite drop_spaces_id.
  - rewrite rev_involutive. reflexivity.
  - apply Forall_rev. exact H.
Qed.

Lemma take_while_app : forall f l1 l2,
  Forall (fun c => f c = true) l1 ->
  Reconnect.take_while f (app l1 l2) = app l1 (Reconnect.take_while f l2).
Proof.
  intros f l1 l2 H. induction H as [|x l Hx _ IH]; simpl; [reflexivity|].
  rewrite Hx, IH. reflexivity.
Qed.

Lemma take_while_stop : forall f x l, f x = false -> Reconnect.take_while f (x :: l) = [].
Proof. intros f x l H. simpl. rewrite H. reflexivity. Qed.

Lemma skipn_length_app : forall {A} (l1 l2 : list A), skipn (length l1) (app l1 l2) = l2.
Proof. intros A l1 l2. induction l1; simpl; [reflexivity|exact IHl1]. Qed.

Lemma firstn_length_app : forall {A} (l1 l2 : list A), firstn (length l1) (app l1 l2) = l1.
Proof. intros A l1 l2. induction l1; simpl; [reflexivity|rewrite IHl1; reflexivity]. Qed.

Lemma in_strip : forall l c,
  In c (list_ascii_of_string (strip (string_of_list_ascii l))) -> In c l.
Proof.
  intros l c H. unfold strip in H. rewrite !list_ascii_of_string_of_list_ascii in H.
  apply in_rev in H.
  assert (D : forall l', incl (drop_spaces l') l').
  { induction l' as [|x l' IH]; simpl; [intros y Hy; exact Hy|].
    destruct (is_space x); [intros y Hy; right; apply IH; exact Hy|intros y Hy; exact Hy]. }
  apply D in H. apply in_rev in H. apply D in H. exact H.
Qed.

Lemma take_while_forall : forall f l, Forall (fun c => f c = true) (Reconnect.take_while f l).
Proof.
  intros f l. induction l as [|x l IH]; simpl; [constructor|].
  destruct (f x) eqn:E; [constructor; assumption|constructor].
Qed.

Lemma take_while_firstn : forall f l,
  Reconnect.take_while f l = firstn (length (Reconnect.take_while f l)) l.
Proof.
  intros f l. induction l as [|x l IH]; simpl; [reflexivity|].
  destruct (f x); simpl; [rewrite <- IH; reflexivity|reflexivity].
Qed.

End StrFacts.

(** ** Endpoint extraction *)
Module EndpointFacts.
Import DnsConfig StrFacts.

Lemma search_endpoint_eq : forall l,
  search_endpoint l = match match_endpoint_at l with
                      | Some g => Some g
                      | None => match l with [] => None | _ :: t => search_endpoint t end
                      end.
Proof. intros [|x l]; reflexivity. Qed.

Lemma match_endpoint_kw : forall l g, match_endpoint_at l = Some g ->
  exists r, Reconnect.strip_prefix (list_ascii_of_string "Endpoint") l = Some r.
Proof.
  intros l g H. unfold match_endpoint_at in H.
  destruct (Reconnect.strip_prefix _ l) as [r|]; [exists r; reflexivity|discriminate].
Qed.

Lemma in_firstn : forall {A} (x : A) n l, In x (firstn n l) -> In x l.
Proof.
  intros A x n l H. rewrite <- (firstn_skipn n l). apply in_or_app. left. exact H.
Qed.

Lemma in_skipn : forall {A} (x : A) n l, In x (skipn n l) -> In x l.
Proof.
  intros A x n l H. rewrite <- (firstn_skipn n l). apply in_or_app. right. exact H.
Qed.

Lemma in_firstn_skipn : forall {A} (x : A) a b n l,
  (b + a <= n)%nat -> In x (firstn a (skipn b l)) -> In x (firstn n l).
Proof.
  intros A x a b n l Hle H. rewrite firstn_skipn_comm in H.
  apply in_skipn in H.
  replace (firstn (b + a) l) with (firstn (b + a) (firstn n l)) in H.
  - apply in_firstn in H. exact H.
  - rewrite firstn_firstn. f_equal. lia.
Qed.

Lemma match_endpoint_no_colon : forall l g, match_endpoint_at l = Some g ->
  Forall (fun c => not_colon c = true) g.
Proof.
  intros l g H. unfold match_endpoint_at in H.
  destruct (Reconnect.strip_prefix _ l) as [r1|]; [|discriminate].
  destruct (drop_spaces r1) as [|c r2]; [discriminate|].
  destruct (Nat.eqb (code c) 61); [|discriminate].
  set (k := length (Reconnect.take_while is_space r2)) in H.
  set (e := length (Reconnect.take_while not_colon r2)) in H.
  assert (Hall : Forall (fun c => not_colon c = true) (firstn e r2)).
  { unfold e. rewrite <- take_while_firstn. apply take_while_forall. }
  rewrite Forall_forall in Hall |- *.
  destruct (skipn e r2) as [|c1 [|d t]]; try discriminate.
  destruct (Nat.eqb (code c1) 58 && is_digit d); [|discriminate].
  destruct (k <? e)%nat eqn:Hk.
  - injection H as <-. intros x Hx. apply Hall.
    apply Nat.ltb_lt in Hk. apply (in_firstn_skipn x (e - k) k e r2); [lia|exact Hx].
  - destruct (1 <=? e)%nat eqn:He; [|discriminate].
    injection H as <-. intros x Hx. apply Hall. apply Nat.leb_le in He.
    apply (in_firstn_skipn x 1 (e - 1) e r2); [lia|exact Hx].
Qed.

Lemma search_endpoint_no_colon : forall l g, search_endpoint l = Some g ->
  Forall (fun c => not_colon c = true) g.
Proof.
  induction l as [|x l IH]; intros g H; rewrite search_endpoint_eq in H.
  - destruct (match_endpoint_at []) eqn:E; [injection H as <-|discriminate].
    exact (match_endpoint_no_colon _ _ E).
  - destruct (match_endpoint_at (x :: l)) eqn:E; [injection H as <-|exact (IH g H)].
    exact (match_endpoint_no_colon _ _ E).
Qed.

Lemma strip_idem : forall s, strip (strip s) = strip s.
Proof.
  intros s. unfold strip. rewrite list_ascii_of_string_of_list_ascii.
  set (l := drop_spaces (list_ascii_of_string s)).
  assert (Hl : forall x t, l = x :: t -> is_space x = false).
  { unfold l. clear. induction (list_ascii_of_string s) as [|y r IH]; simpl; [discriminate|].
    destruct (is_space y) eqn:E; [exact IH|intros x t H; injection H as <- _; exact E]. }
  assert (Hsplit : forall z, exists sp, z = app sp (drop_spaces z)
                                 /\ Forall (fun c => is_space c = true) sp).
  { induction z as [|y z IH]; simpl; [exists []; split; [reflexivity|constructor]|].
    destruct (is_space y) eqn:E.
    - destruct IH as [sp [Hz Hsp]]. exists (y :: sp). split; [simpl; rewrite <- Hz; reflexivity|].
      constructor; assumption.
    - exists []. split; [reflexivity|constructor]. }
  assert (Hhead : forall z, match drop_spaces z with x :: _ => is_space x = false | [] => True end).
  { induction z as [|y z IH]; simpl; [exact I|]. destruct (is_space y) eqn:E; [exact IH|exact E]. }
  set (w := drop_spaces (rev l)).
  assert (Hw : drop_spaces w = w).
  { unfold w. pose proof (Hhead (rev l)) as H. destruct (drop_spaces (rev l)) as [|x t];
      [reflexivity|simpl; rewrite H; reflexivity]. }
  assert (Hrw : drop_spaces (rev w) = rev w).
  { destruct (Hsplit (rev l)) as [sp [Hz Hsp]]. fold w in Hz.
    assert (El : l = app (rev w) (rev sp)).
    { rewrite <- (rev_involutive l), Hz. apply rev_app_distr. }
    destruct (rev w) as [|x t] eqn:Ew; [reflexivity|].
    simpl. rewrite (Hl x (app t (rev sp))); [reflexivity|].
    rewrite El. reflexivity. }
  rewrite Hrw, rev_involutive, Hw. reflexivity.
Qed.


Lemma match_endpoint_line : forall x H d R, is_space x = false ->
  Forall (fun c => not_colon c = true) (x :: H) -> is_digit d = true ->
  match_endpoint_at
    (app (list_ascii_of_string "Endpoint = ") (app (x :: H) (":"%char :: d :: R)))
  = Some (x :: H).
Proof.
  intros x H d R Hx Hc Hd. inversion Hc as [|y z Hx' HH]; subst.
  unfold match_endpoint_at. simpl. rewrite Hx, Hx'.
  rewrite (take_while_app _ H _ HH), take_while_stop by reflexivity.
  rewrite app_nil_r. simpl.
  rewrite skipn_length_app, firstn_length_app. simpl. rewrite Hd. reflexivity.
Qed.

Lemma search_endpoint_line : forall pre x H d R,
  py_in "Endpoint" pre = false -> is_space x = false ->
  Forall (fun c => not_colon c = true) (x :: H) -> is_digit d = true ->
  search_endpoint
    (app (list_ascii_of_string pre)
       (ascii_of_nat 10 :: app (list_ascii_of_string "Endpoint = ")
                                (app (x :: H) (":"%char :: d :: R))))
  = Some (x :: H).
Proof.
  intros pre x H d R Hpre Hx Hc Hd.
  rewrite (search_after_line "Endpoint" match_endpoint_at search_endpoint
             search_endpoint_eq match_endpoint_kw (ascii_of_nat 10)).
  - rewrite search_endpoint_eq, match_endpoint_line by assumption. reflexivity.
  - simpl. intuition discriminate.
  - exists "E"%char, "ndpoint". split; [reflexivity|discriminate].
  - exact Hpre.
Qed.

End EndpointFacts.

(** ** The endpoint hostname of a config *)

(** X1. what [extract_hostname_from_config] returns is a hostname that
    [socket.inet_aton] rejected (so not an IPv4 address), with no
    surrounding whitespace and no colon. *)
Theorem extract_hostname_from_config_result : forall inet_aton config h,
  DnsConfig.extract_hostname_from_config inet_aton config = Some h ->
  inet_aton h = DnsConfig.InetError
  /\ strip h = h
  /\ ~ In ":"%char (list_ascii_of_string h).
Proof.
  intros inet_aton config h H. unfold DnsConfig.extract_hostname_from_config in H.
  destruct (DnsConfig.search_endpoint (list_ascii_of_string config)) as [g|] eqn:Eg;
    [|discriminate].
  unfold DnsConfig.is_ip_address in H.
  destruct (inet_aton (strip (string_of_list_ascii g))) eqn:Ei; try discriminate.
  injection H as <-. split; [exact Ei|]. split; [apply EndpointFacts.strip_idem|].
  intros Hin. apply StrFacts.in_strip in Hin.
  pose proof (EndpointFacts.search_endpoint_no_colon _ _ Eg) as F.
  rewrite Forall_forall in F. specialize (F _ Hin). discriminate F.
Qed.

Lemma extract_hostname_from_config_result_witness :
  DnsConfig.extract_hostname_from_config (fun _ => DnsConfig.InetError)
    "Endpoint = vpn.example.com:51820" = Some "vpn.example.com"
  /\ (fun _ : string => DnsConfig.InetError) "vpn.example.com" = DnsConfig.InetError.
Proof.
  assert (E : DnsConfig.extract_hostname_from_config (fun _ => DnsConfig.InetError)
                "Endpoint = vpn.example.com:51820" = Some "vpn.example.com")
    by (vm_compute; reflexivity).
  split; [exact E|].
  exact (proj1 (extract_hostname_from_config_result _ _ _ E)).
Defined.

(** X2. a config whose first [Endpoint] line (every line before it free
    of the word [Endpoint]) reads [Endpoint = HOST:PORT], with [HOST]
    starting with a non-space character and free of colons and [PORT]
    starting with a digit, yields [HOST] stripped, unless
    [socket.inet_aton] accepts it (an IPv4 address), in which case the
    result is [None] without looking further. *)
Theorem extract_hostname_from_config_endpoint_line :
  forall inet_aton pre x host d rest,
    py_in "Endpoint" pre = false ->
    is_space x = false ->
    ~ In ":"%char (list_ascii_of_string (String x host)) ->
    is_digit d = true ->
    DnsConfig.extract_hostname_from_config inet_aton
      (pre ++ String (ascii_of_nat 10)
                ("Endpoint = " ++ String x host ++ ":" ++ String d rest))
    = match inet_aton (strip (String x host)) with
      | DnsConfig.InetError => Some (strip (String x host))
      | _ => None
      end.
Proof.
  intros inet_aton pre x host d rest Hpre Hx Hcol Hd.
  unfold DnsConfig.extract_hostname_from_config.
  assert (E : list_ascii_of_string
                (pre ++ String (ascii_of_nat 10)
                          ("Endpoint = " ++ String x host ++ ":" ++ String d rest))
              = app (list_ascii_of_string pre)
                  (ascii_of_nat 10 :: app (list_ascii_of_string "Endpoint = ")
                     (app (x :: list_ascii_of_string host)
                          (":"%char :: d :: list_ascii_of_string rest)))).
  { rewrite StrFacts.list_ascii_app. simpl. rewrite StrFacts.list_ascii_app. reflexivity. }
  rewrite E, EndpointFacts.search_endpoint_line; try assumption.
  - unfold DnsConfig.is_ip_address.
    change (string_of_list_ascii (x :: list_ascii_of_string host)) with
      (string_of_list_ascii (list_ascii_of_string (String x host))).
    rewrite string_of_list_ascii_of_string.
    destruct (inet_aton (strip (String x host))); reflexivity.
  - rewrite Forall_forall. intros c Hc.
    unfold DnsConfig.not_colon. apply negb_true_iff. apply Nat.eqb_neq. intros Hn.
    apply Hcol. assert (Ec : c = ":"%char).
    { rewrite <- (ascii_nat_embedding c). unfold code in Hn. rewrite Hn. reflexivity. }
    rewrite <- Ec. exact Hc.
Qed.

Lemma extract_hostname_from_config_endpoint_line_witness :
  DnsConfig.extract_hostname_from_config (fun _ => DnsConfig.InetError)
    ("[Peer]" ++ String (ascii_of_nat 10) ("Endpoint = " ++ "vpn.example.org" ++ ":" ++ "51820"))
  = Some "vpn.example.org".
Proof.
  apply (extract_hostname_from_config_endpoint_line (fun _ => DnsConfig.InetError)
           "[Peer]" "v"%char "pn.example.org" "5"%char "1820").
  - reflexivity.
  - reflexivity.
  - simpl. intuition discriminate.
  - reflexivity.
Defined.

Lemma strip_nonempty : forall x host, is_space x = false -> strip (String x host) <> "".
Proof.
  intros x host Hx. unfold strip. simpl. rewrite Hx.
  assert (D : forall l, In x l -> drop_spaces l <> []).
  { induction l as [|y l IH]; intros Hin; [destruct Hin|]. simpl.
    destruct Hin as [->|Hin]; [rewrite Hx; discriminate|].
    destruct (is_space y); [exact (IH Hin)|discriminate]. }
  assert (Hin : In x (rev (x :: list_ascii_of_string host))) by (apply in_rev; rewrite rev_involutive; left; reflexivity).
  specialize (D _ Hin).
  destruct (drop_spaces (rev (x :: list_ascii_of_string host))) as [|y t] eqn:E; [contradiction|].
  simpl. destruct (rev t); discriminate.
Qed.

(** X3. [_register_hostname_for_monitoring] on a config whose first
    [Endpoint] line is [Endpoint = HOST:PORT] (as above) maps the
    stripped [HOST] to the client, leaving the other hostnames, when
    [socket.inet_aton] rejects it and the client lookup does not raise;
    when [HOST] is an IPv4 address nothing is registered. *)
Theorem register_hostname_for_monitoring_endpoint :
  forall inet_aton cid pre x host d rest lookup s,
    py_in "Endpoint" pre = false ->
    is_space x = false ->
    ~ In ":"%char (list_ascii_of_string (String x host)) ->
    is_digit d = true ->
    let s' := DnsConfig.register_hostname_for_monitoring inet_aton cid
                (pre ++ String (ascii_of_nat 10)
                          ("Endpoint = " ++ String x host ++ ":" ++ String d rest))
                lookup s in
    (inet_aton (strip (String x host)) = DnsConfig.InetError ->
     lookup <> DnsConfig.NameRaised ->
     dict_get (strip (String x host)) (Dns.client_hostnames s') = Some cid
     /\ (forall h, h <> strip (String x host) ->
           dict_get h (Dns.client_hostnames s') = dict_get h (Dns.client_hostnames s)))
    /\ (inet_aton (strip (String x host)) = DnsConfig.InetOk -> s' = s).
Proof.
  intros inet_aton cid pre x host d rest lookup s Hpre Hx Hcol Hd s'.
  unfold s', DnsConfig.register_hostname_for_monitoring.
  rewrite extract_hostname_from_config_endpoint_line by assumption.
  split.
  - intros Hi Hl. rewrite Hi. rewrite (eqb_neq_s _ _ (strip_nonempty x host Hx)).
    destruct lookup as [n| |]; [| |contradiction]; simpl;
      (split; [apply get_set_same|intros h Hh; apply get_set_other; exact Hh]).
  - intros Hi. rewrite Hi. reflexivity.
Qed.

Lemma register_hostname_for_monitoring_endpoint_witness :
  dict_get "vpn.example.org"
    (Dns.client_hostnames
       (DnsConfig.register_hostname_for_monitoring (fun _ => DnsConfig.InetError) "c1"
          ("[Peer]" ++ String (ascii_of_nat 10) ("Endpoint = " ++ "vpn.example.org" ++ ":" ++ "51820"))
          (DnsConfig.NameFound "office") (Dns.DState [] [] [] [])))
  = Some "c1".
Proof.
  refine (proj1 (proj1 (register_hostname_for_monitoring_endpoint
             (fun _ => DnsConfig.InetError) "c1" "[Peer]" "v"%char "pn.example.org" "5"%char "1820"
             (DnsConfig.NameFound "office") (Dns.DState [] [] [] [])
             eq_refl eq_refl _ eq_refl) _ _)).
  - simpl. intuition discriminate.
  - reflexivity.
  - discriminate.
Defined.
Module DnsMoreFacts.
Import Dns DnsConfig DnsFacts DnsEvents.

Lemma get_notin : forall {V} k (d : dict V), ~ In k (map fst d) -> dict_get k d = None.
Proof.
  intros V k d. induction d as [|[k0 v0] d IH]; simpl; intros Hn; [reflexivity|].
  rewrite (eqb_neq_s k k0) by (intros ->; apply Hn; left; reflexivity).
  apply IH. intros Hi; apply Hn; right; exact Hi.
Qed.

Lemma nodup_in_get : forall {V} k (v : V) d,
  NoDup (map fst d) -> In (k, v) d -> dict_get k d = Some v.
Proof.
  intros V k v d. induction d as [|[k0 v0] d IH]; simpl; intros Hnd Hin; [destruct Hin|].
  inversion Hnd as [|x y Hn Hnd']; subst.
  destruct Hin as [E|Hin].
  - injection E as -> ->. rewrite eqb_refl_s. reflexivity.
  - rewrite (eqb_neq_s k k0). { exact (IH Hnd' Hin). }
    intros ->. apply Hn. exact (in_map fst d (k0, v) Hin).
Qed.

Lemma fold_del_get : forall {V} L (d : dict V) h,
  dict_get h (fold_left (fun d h => dict_del h d) L d)
  = if existsb (String.eqb h) L then None else dict_get h d.
Proof.
  intros V L. induction L as [|h0 L IH]; intros d h; simpl; [reflexivity|].
  rewrite IH. destruct (String.eqb_spec h h0) as [->|Hne].
  - rewrite get_del_same. destruct (existsb _ L); reflexivity.
  - rewrite get_del_other by exact Hne. reflexivity.
Qed.

Lemma check_one_names : forall now resolve s hc,
  client_names (fst (check_one now resolve s hc)) = client_names s.
Proof.
  intros now resolve s [h c]. unfold check_one.
  destruct (match dict_get h (last_checks s) with
            | Some lc => now - lc <? DNS_CHECK_INTERVAL | None => false end); [reflexivity|].
  destruct (resolve h) as [ip|]; [|reflexivity].
  destruct (String.eqb ip ""); reflexivity.
Qed.

Lemma check_one_events : forall now resolve s h c,
  let (s1, e1) := check_one now resolve s (h, c) in
  (e1 = [] \/ exists ev, e1 = [ev])
  /\ Forall (fun ev => c_hostname ev = h /\ c_client_id ev = c
                       /\ ev_before now resolve s ev /\ ev_after now s1 ev) e1.
Proof.
  intros now resolve s h c. unfold check_one.
  destruct (match dict_get h (last_checks s) with
            | Some lc => now - lc <? DNS_CHECK_INTERVAL | None => false end) eqn:Er.
  { split; [left; reflexivity|constructor]. }
  destruct (resolve h) as [ip|] eqn:Eres.
  2:{ split; [left; reflexivity|constructor]. }
  destruct (String.eqb ip "") eqn:Eip.
  { split; [left; reflexivity|constructor]. }
  destruct (dict_get h (resolved_ips s)) as [p|] eqn:Ep.
  2:{ split; [left; reflexivity|constructor]. }
  destruct (negb (String.eqb p "") && negb (String.eqb p ip)) eqn:Ec.
  2:{ split; [left; reflexivity|constructor]. }
  split; [right; eexists; reflexivity|].
  apply andb_true_iff in Ec. destruct Ec as [E1 E2].
  apply negb_true_iff, String.eqb_neq in E1. apply negb_true_iff, String.eqb_neq in E2.
  constructor; [|constructor]. simpl.
  split; [reflexivity|]. split; [reflexivity|]. split.
  - unfold ev_before, due. simpl. split.
    + destruct (dict_get h (last_checks s)); [apply Z.ltb_ge; exact Er|exact I].
    + split; [exact Ep|]. split; [exact Eres|]. split; [exact E1|].
      split; [apply String.eqb_neq; exact Eip|]. split; [exact E2|reflexivity].
  - unfold ev_after. simpl. split; apply get_set_same.
Qed.

Lemma check_loop_sound : forall now resolve items s,
  NoDup (map fst items) ->
  let (s', evs) := check_loop now resolve items s in
  NoDup (map c_hostname evs)
  /\ Forall (fun ev => In (c_hostname ev, c_client_id ev) items
                       /\ ev_before now resolve s ev /\ ev_after now s' ev) evs
  /\ client_names s' = client_names s.
Proof.
  intros now resolve items. induction items as [|[h c] rest IH]; intros s Hnd; cbn [check_loop].
  { split; [constructor|split; [constructor|reflexivity]]. }
  inversion Hnd as [|x y Hnot Hnd']; subst.
  pose proof (check_one_events now resolve s h c) as E1.
  pose proof (check_one_frame now resolve s h c) as F1.
  pose proof (check_one_names now resolve s (h, c)) as N1.
  destruct (check_one now resolve s (h, c)) as [s1 e1]. simpl in N1.
  destruct E1 as [Hlen He1]. destruct F1 as [_ [Hf _]].
  pose proof (check_loop_frame now resolve rest s1 h Hnot) as F2.
  specialize (IH s1 Hnd').
  destruct (check_loop now resolve rest s1) as [s2 e2].
  destruct F2 as [R2 [L2 _]]. destruct IH as [Hnd2 [He2 N2]].
  assert (Hh2 : forall ev, In ev e2 -> c_hostname ev <> h).
  { intros ev Hi E. rewrite Forall_forall in He2. destruct (He2 ev Hi) as [Hin _].
    apply Hnot. rewrite <- E. exact (in_map fst _ _ Hin). }
  split; [|split; [|congruence]].
  - rewrite map_app. destruct Hlen as [->|[ev ->]]; [exact Hnd2|].
    simpl. constructor; [|exact Hnd2].
    inversion He1 as [|a b Hab _]; subst. destruct Hab as [Ha _]. rewrite Ha.
    intros Hi. apply in_map_iff in Hi. destruct Hi as [ev' [E Hi]]. exact (Hh2 ev' Hi E).
  - apply Forall_app. split.
    + eapply Forall_impl; [|exact He1]. intros ev [Hh [Hc [B A]]].
      split; [left; rewrite Hh, Hc; reflexivity|]. split; [exact B|].
      unfold ev_after in *. rewrite Hh in *. rewrite R2, L2. exact A.
    + rewrite Forall_forall in He2 |- *. intros ev Hi.
      destruct (He2 ev Hi) as [Hin [B A]]. split; [right; exact Hin|]. split; [|exact A].
      destruct (Hf (c_hostname ev) (Hh2 ev Hi)) as [R1 L1].
      unfold ev_before, due in *. rewrite <- R1, <- L1. exact B.
Qed.

Lemma check_one_skip : forall now resolve s h c,
  (match dict_get h (last_checks s) with
   | Some lc => now - lc < DNS_CHECK_INTERVAL | None => False end
   \/ resolve h = None \/ resolve h = Some "") ->
  check_one now resolve s (h, c) = (s, []).
Proof.
  intros now resolve s h c Hs. unfold check_one.
  destruct (match dict_get h (last_checks s) with
            | Some lc => now - lc <? DNS_CHECK_INTERVAL | None => false end) eqn:Er;
    [reflexivity|].
  destruct Hs as [Ht|[Hr|Hr]].
  - destruct (dict_get h (last_checks s)); [|destruct Ht].
    apply Z.ltb_lt in Ht. congruence.
  - rewrite Hr. reflexivity.
  - rewrite Hr. reflexivity.
Qed.

Lemma check_loop_skip : forall now resolve items s h,
  (match dict_get h (last_checks s) with
   | Some lc => now - lc < DNS_CHECK_INTERVAL | None => False end
   \/ resolve h = None \/ resolve h = Some "") ->
  let (s', evs) := check_loop now resolve items s in
  filter (fun ev => String.eqb (c_hostname ev) h) evs = []
  /\ dict_get h (resolved_ips s') = dict_get h (resolved_ips s)
  /\ dict_get h (last_checks s') = dict_get h (last_checks s).
Proof.
  intros now resolve items. induction items as [|[h' c] rest IH]; intros s h Hs; cbn [check_loop].
  { split; [reflexivity|split; reflexivity]. }
  destruct (String.eqb_spec h' h) as [->|Hne].
  - rewrite (check_one_skip now resolve s h c Hs). pose proof (IH s h Hs) as I.
    destruct (check_loop now resolve rest s) as [s2 e2]. exact I.
  - pose proof (check_one_frame now resolve s h' c) as F.
    destruct (check_one now resolve s (h', c)) as [s1 e1].
    destruct F as [_ [Hf He]]. destruct (Hf h (not_eq_sym Hne)) as [R1 L1].
    rewrite <- L1 in Hs. specialize (IH s1 h Hs).
    destruct (check_loop now resolve rest s1) as [s2 e2].
    destruct IH as [Fl [R2 L2]].
    split; [|split; congruence].
    rewrite filter_app, Fl, app_nil_r.
    induction He as [|ev evs [Hh _] _ IHe]; [reflexivity|].
    simpl. rewrite Hh, (eqb_neq_s h' h Hne). exact IHe.
Qed.

Lemma hostname_status_loop_get : forall now s items status h,
  NoDup (map fst items) ->
  dict_get h (hostname_status_loop now s items status)
  = match dict_get h items with
    | Some c =>
        Some (HStatus c (match dict_get c (client_names s) with
                         | Some n => n | None => "Unknown" end)
                (dict_get h (resolved_ips s)) (dict_get h (last_checks s))
                (option_map (fun t => now - t) (dict_get h (last_checks s))))
    | None => dict_get h status
    end.
Proof.
  intros now s items. induction items as [|[h' c] rest IH]; intros status h Hnd;
    [reflexivity|].
  inversion Hnd as [|x y Hnot Hnd']; subst. cbn [hostname_status_loop].
  rewrite IH by exact Hnd'. simpl.
  destruct (String.eqb_spec h h') as [->|Hne].
  - rewrite (get_notin h' rest Hnot). apply get_set_same.
  - destruct (dict_get h rest); [reflexivity|]. apply get_set_other. exact Hne.
Qed.

End DnsMoreFacts.

(** X4. every event of [check_hostname_changes] is about a registered
    hostname of the event's client, one event per hostname at most; the
    hostname was due for a check, its previous address is the non-empty
    address stored before the check, its current address is the resolver's
    non-empty answer and differs from the previous one, the timestamp is
    the check's time, and after the check the stored address is the
    current one and the last check is this time. The registrations and the
    client names are left unchanged. *)
Theorem check_hostname_changes_sound :
  forall now resolve s,
    NoDup (map fst (Dns.client_hostnames s)) ->
    let (s', evs) := Dns.check_hostname_changes now resolve s in
    NoDup (map Dns.c_hostname evs)
    /\ Forall (fun ev =>
         dict_get (Dns.c_hostname ev) (Dns.client_hostnames s) = Some (Dns.c_client_id ev)
         /\ DnsEvents.ev_before now resolve s ev /\ DnsEvents.ev_after now s' ev) evs
    /\ Dns.client_hostnames s' = Dns.client_hostnames s
    /\ Dns.client_names s' = Dns.client_names s.
Proof.
  intros now resolve s Hnd. unfold Dns.check_hostname_changes.
  pose proof (DnsMoreFacts.check_loop_sound now resolve (Dns.client_hostnames s) s Hnd) as S.
  pose proof (DnsFacts.check_loop_events now resolve (Dns.client_hostnames s) s) as E.
  destruct (Dns.check_loop now resolve (Dns.client_hostnames s) s) as [s' evs].
  destruct S as [Hn [Hf Hc]]. destruct E as [Ch _].
  split; [exact Hn|]. split; [|split; [exact Ch|exact Hc]].
  eapply Forall_impl; [|exact Hf]. intros ev [Hin BA].
  split; [exact (DnsMoreFacts.nodup_in_get _ _ _ Hnd Hin)|exact BA].
Qed.

Lemma check_hostname_changes_sound_witness :
  Forall (fun ev => Dns.c_previous_ip ev <> Dns.c_current_ip ev)
         (snd (Dns.check_hostname_changes 7 (fun _ => Some "2.2.2.2") Dns.dns_s0)).
Proof.
  pose proof (check_hostname_changes_sound 7 (fun _ => Some "2.2.2.2") Dns.dns_s0) as T.
  destruct (Dns.check_hostname_changes 7 (fun _ => Some "2.2.2.2") Dns.dns_s0) as [s' evs].
  destruct T as [_ [F _]].
  - repeat constructor. intros [].
  - simpl. eapply Forall_impl; [|exact F]. intros ev [_ [B _]].
    exact (proj1 (proj2 (proj2 (proj2 (proj2 (proj2 B)))))).
Defined.

(** X5. a hostname whose last check is less than [DNS_CHECK_INTERVAL] old,
    or whose resolution fails or gives an empty address, gets no event
    from [check_hostname_changes], and its stored address and last check
    are left as they were. *)
Theorem check_hostname_changes_skipped :
  forall now resolve s h,
    (match dict_get h (Dns.last_checks s) with
     | Some lc => now - lc < Dns.DNS_CHECK_INTERVAL | None => False end
     \/ resolve h = None \/ resolve h = Some "") ->
    let (s', evs) := Dns.check_hostname_changes now resolve s in
    filter (fun ev => String.eqb (Dns.c_hostname ev) h) evs = []
    /\ dict_get h (Dns.resolved_ips s') = dict_get h (Dns.resolved_ips s)
    /\ dict_get h (Dns.last_checks s') = dict_get h (Dns.last_checks s).
Proof.
  intros now resolve s h Hs. unfold Dns.check_hostname_changes.
  exact (DnsMoreFacts.check_loop_skip now resolve (Dns.client_hostnames s) s h Hs).
Qed.

Lemma check_hostname_changes_skipped_witness :
  filter (fun ev => String.eqb (Dns.c_hostname ev) "h")
    (snd (Dns.check_hostname_changes 7 (fun _ => None) Dns.dns_s0)) = [].
Proof.
  pose proof (check_hostname_changes_skipped 7 (fun _ => None) Dns.dns_s0 "h") as T.
  destruct (Dns.check_hostname_changes 7 (fun _ => None) Dns.dns_s0) as [s' evs].
  destruct T as [F _]; [right; left; reflexivity|exact F].
Defined.

(** X6. once [check_hostname_changes] has reported a change of a hostname
    to an address, a later check whose resolver answers that same address
    for the hostname reports no change of it, whatever its time. *)
Theorem check_hostname_changes_reported_once :
  forall now1 resolve1 now2 resolve2 s,
    NoDup (map fst (Dns.client_hostnames s)) ->
    let (s1, evs1) := Dns.check_hostname_changes now1 resolve1 s in
    forall ev, In ev evs1 ->
      resolve2 (Dns.c_hostname ev) = Some (Dns.c_current_ip ev) ->
      filter (fun e => String.eqb (Dns.c_hostname e) (Dns.c_hostname ev))
             (snd (Dns.check_hostname_changes now2 resolve2 s1)) = [].
Proof.
  intros now1 resolve1 now2 resolve2 s Hnd.
  pose proof (check_hostname_changes_sound now1 resolve1 s Hnd) as T.
  destruct (Dns.check_hostname_changes now1 resolve1 s) as [s1 evs1].
  destruct T as [_ [F [Ch _]]]. intros ev Hin Hr2.
  rewrite Forall_forall in F. destruct (F ev Hin) as [Hg [B [Ra La]]].
  destruct B as [_ [_ [_ [_ [Hcur _]]]]].
  set (h := Dns.c_hostname ev) in *.
  destruct (Z_lt_le_dec (now2 - now1) Dns.DNS_CHECK_INTERVAL) as [Hlt|Hge].
  - pose proof (check_hostname_changes_skipped now2 resolve2 s1 h) as S.
    destruct (Dns.check_hostname_changes now2 resolve2 s1) as [s2 evs2].
    destruct S as [Fl _]; [left; rewrite La; exact Hlt|exact Fl].
  - unfold Dns.check_hostname_changes.
    rewrite Ch.
    assert (Hp : forall p, dict_get h (Dns.resolved_ips s1) = Some p -> p <> "").
    { intros p Hp. rewrite Ra in Hp. injection Hp as <-. exact Hcur. }
    assert (Hel : match dict_get h (Dns.last_checks s1) with
                  | Some lc => Dns.DNS_CHECK_INTERVAL <= now2 - lc | None => True end)
      by (rewrite La; exact Hge).
    pose proof (DnsFacts.check_loop_self now2 resolve2 (Dns.client_hostnames s) s1 h
                  (Dns.c_client_id ev) (Dns.c_current_ip ev) Hnd Hg Hel Hr2 Hcur Hp) as S.
    destruct (Dns.check_loop now2 resolve2 (Dns.client_hostnames s) s1) as [s2 evs2].
    destruct S as [Fl _]. cbn [snd]. rewrite Fl, Ra, eqb_refl_s. reflexivity.
Qed.

Lemma check_hostname_changes_reported_once_witness :
  filter (fun e => String.eqb (Dns.c_hostname e) "h")
    (snd (Dns.check_hostname_changes 900000000 (fun _ => Some "2.2.2.2")
            (fst (Dns.check_hostname_changes 7 (fun _ => Some "2.2.2.2") Dns.dns_s0)))) = [].
Proof.
  pose proof (check_hostname_changes_reported_once 7 (fun _ => Some "2.2.2.2")
                900000000 (fun _ => Some "2.2.2.2") Dns.dns_s0) as T.
  assert (Hnd : NoDup (map fst (Dns.client_hostnames Dns.dns_s0))) by (repeat constructor; intros []).
  specialize (T Hnd).
  destruct (Dns.check_hostname_changes 7 (fun _ => Some "2.2.2.2") Dns.dns_s0) as [s1 evs1] eqn:E.
  assert (Hev : evs1 = [Dns.Change "c" "h" "1.1.1.1" "2.2.2.2" 7])
    by (vm_compute in E; injection E as _ <-; reflexivity).
  subst evs1. exact (T _ (or_introl eq_refl) eq_refl).
Defined.

(** X7. with distinct registered hostnames, [get_hostname_status] has an
    entry exactly for each registered hostname: its client, the client's
    name (["Unknown"] when none is stored), the stored address, the last
    check and the time since it. *)
Theorem get_hostname_status_lookup :
  forall now s h,
    NoDup (map fst (Dns.client_hostnames s)) ->
    dict_get h (DnsConfig.get_hostname_status now s)
    = match dict_get h (Dns.client_hostnames s) with
      | Some c =>
          Some (DnsConfig.HStatus c (match dict_get c (Dns.client_names s) with
                                     | Some n => n | None => "Unknown" end)
                  (dict_get h (Dns.resolved_ips s)) (dict_get h (Dns.last_checks s))
                  (option_map (fun t => now - t) (dict_get h (Dns.last_checks s))))
      | None => None
      end.
Proof.
  intros now s h Hnd. unfold DnsConfig.get_hostname_status.
  rewrite (DnsMoreFacts.hostname_status_loop_get now s _ [] h Hnd).
  destruct (dict_get h (Dns.client_hostnames s)); reflexivity.
Qed.

Lemma get_hostname_status_lookup_witness :
  dict_get "h" (DnsConfig.get_hostname_status 10 Dns.dns_s0)
  = Some (DnsConfig.HStatus "c" "Unknown" (Some "1.1.1.1") None None).
Proof.
  rewrite (get_hostname_status_lookup 10 Dns.dns_s0 "h") by (repeat constructor; intros []).
  reflexivity.
Defined.

(** X8. after [register_client_hostname cid h name] with a non-empty name,
    on distinct registered hostnames, [get_hostname_status] reports [h]
    with client [cid], that name, and the address and last check already
    stored for [h] (registration does not touch the caches). *)
Theorem register_then_hostname_status :
  forall now cid h n s,
    NoDup (map fst (Dns.client_hostnames s)) -> n <> "" ->
    dict_get h (DnsConfig.get_hostname_status now
                  (Dns.register_client_hostname cid h (Some n) s))
    = Some (DnsConfig.HStatus cid n (dict_get h (Dns.resolved_ips s))
              (dict_get h (Dns.last_checks s))
              (option_map (fun t => now - t) (dict_get h (Dns.last_checks s)))).
Proof.
  intros now cid h n s Hnd Hn.
  rewrite get_hostname_status_lookup by (apply DnsFacts.nodup_set; exact Hnd).
  simpl. rewrite get_set_same, (eqb_neq_s n "" Hn). simpl. rewrite get_set_same. reflexivity.
Qed.

Lemma register_then_hostname_status_witness :
  dict_get "vpn.example.org"
    (DnsConfig.get_hostname_status 10
       (Dns.register_client_hostname "d" "vpn.example.org" (Some "office") Dns.dns_s0))
  = Some (DnsConfig.HStatus "d" "office" None None None).
Proof.
  rewrite (register_then_hostname_status 10 "d" "vpn.example.org" "office" Dns.dns_s0)
    by (try discriminate; repeat constructor; intros []).
  reflexivity.
Defined.

(** X9. with distinct registered hostnames, [unregister_client_hostname cid]
    leaves every hostname of another client registered to it, with its
    stored address and last check, and leaves the names of the other
    clients. *)
Theorem unregister_client_hostname_keeps_others :
  forall cid s h c,
    NoDup (map fst (Dns.client_hostnames s)) ->
    In (h, c) (Dns.client_hostnames s) -> c <> cid ->
    let s1 := Dns.unregister_client_hostname cid s in
    dict_get h (Dns.client_hostnames s1) = Some c
    /\ dict_get h (Dns.resolved_ips s1) = dict_get h (Dns.resolved_ips s)
    /\ dict_get h (Dns.last_checks s1) = dict_get h (Dns.last_checks s)
    /\ dict_get c (Dns.client_names s1) = dict_get c (Dns.client_names s).
Proof.
  intros cid s h c Hnd Hin Hc s1. unfold s1, Dns.unregister_client_hostname. simpl.
  set (L := map fst (filter (fun hc => String.eqb (snd hc) cid) (Dns.client_hostnames s))).
  assert (HL : existsb (String.eqb h) L = false).
  { apply not_true_is_false. intros E. apply existsb_exists in E.
    destruct E as [h' [Hi E]]. apply String.eqb_eq in E. subst h'.
    unfold L in Hi. apply in_map_iff in Hi. destruct Hi as [[h1 c1] [E Hi]]. simpl in E. subst h1.
    apply filter_In in Hi. destruct Hi as [Hi Ec]. simpl in Ec. apply String.eqb_eq in Ec. subst c1.
    pose proof (DnsMoreFacts.nodup_in_get _ _ _ Hnd Hin) as G1.
    pose proof (DnsMoreFacts.nodup_in_get _ _ _ Hnd Hi) as G2.
    rewrite G1 in G2. injection G2 as E. exact (Hc E). }
  destruct (DnsFacts.fold_remove_cache L s h) as [R C]. rewrite HL in R, C.
  split; [|split; [exact R|split; [exact C|]]].
  - rewrite DnsFacts.fold_remove_hostnames, DnsMoreFacts.fold_del_get, HL.
    exact (DnsMoreFacts.nodup_in_get _ _ _ Hnd Hin).
  - assert (Hn : forall (d : dict string),
               dict_get c (if dict_mem cid d then dict_del cid d else d) = dict_get c d).
    { intros d. destruct (dict_mem cid d); [apply get_del_other; exact Hc|reflexivity]. }
    rewrite Hn. clear. generalize s. induction L as [|x L IH]; intros s0; [reflexivity|].
    simpl. rewrite IH. reflexivity.
Qed.

Lemma unregister_client_hostname_keeps_others_witness :
  dict_get "g" (Dns.resolved_ips
    (Dns.unregister_client_hostname "c"
       (Dns.DState [("h", "1.1.1.1"); ("g", "3.3.3.3")] [] [("h", "c"); ("g", "d")] [])))
  = Some "3.3.3.3".
Proof.
  refine (proj1 (proj2 (unregister_client_hostname_keeps_others "c"
    (Dns.DState [("h", "1.1.1.1"); ("g", "3.3.3.3")] [] [("h", "c"); ("g", "d")] [])
    "g" "d" _ _ _))).
  - repeat constructor; simpl; intuition discriminate.
  - right; left; reflexivity.
  - discriminate.
Defined.
Module ReconnectMoreFacts.
Import Reconnect ReconnectFacts.

Lemma should_fst_get : forall now cid s1 s2,
  dict_get cid s1 = dict_get cid s2 ->
  fst (should_attempt_reconnection now cid s1) = fst (should_attempt_reconnection now cid s2).
Proof.
  intros now cid s1 s2 E. unfold should_attempt_reconnection. rewrite E.
  destruct (dict_get cid s2) as [a|]; [|reflexivity].
  destruct (MAX_RECONNECT_ATTEMPTS <=? count a);
    [destruct (now - last_attempt a >? RECONNECT_COOLDOWN)|
     destruct (now - last_attempt a <? RECONNECT_COOLDOWN)]; reflexivity.
Qed.

Lemma status_loop_entries : forall now items s cid,
  dict_get cid (fst (status_loop now items s))
  = match dict_get cid items with
    | Some a =>
        Some (RStatus (count a) MAX_RECONNECT_ATTEMPTS (Some (last_attempt a))
                (last_success a) (Some (now - last_attempt a))
                (option_map (fun t => now - t) (last_success a))
                (fst (should_attempt_reconnection now cid s)))
    | None => None
    end.
Proof.
  intros now items. induction items as [|[k0 a0] rest IH]; intros s cid; [reflexivity|].
  cbn [status_loop].
  destruct (should_attempt_reconnection now k0 s) as [can s1] eqn:E1.
  pose proof (IH s1 cid) as I.
  destruct (status_loop now rest s1) as [out s2]. simpl in I |- *.
  destruct (String.eqb_spec cid k0) as [->|Hne]; [rewrite E1; reflexivity|].
  rewrite I. destruct (dict_get cid rest); [|reflexivity].
  rewrite (should_fst_get now cid s1 s); [reflexivity|].
  pose proof (should_get_other now k0 cid s Hne) as G. rewrite E1 in G. exact G.
Qed.

Lemma handle_get_other : forall tg tu cid cid' lk e s,
  cid' <> cid ->
  dict_get cid' (snd (handle_dns_change tg tu cid lk e s)) = dict_get cid' s.
Proof.
  intros tg tu cid cid' lk e s Hne. unfold handle_dns_change.
  pose proof (should_get_other tg cid cid' s Hne) as G.
  destruct (should_attempt_reconnection tg cid s) as [ok s1]. simpl in G.
  destruct ok; simpl; [|exact G].
  destruct lk; simpl; try exact G.
  rewrite update_get_other by exact Hne. exact G.
Qed.

End ReconnectMoreFacts.

(** X10. each value of the dict returned by [get_reconnection_status] is
    built from the client's record as it was before the query (count,
    maximum, last attempt, last success and the times since them), with
    [can_reconnect] the answer of [_should_attempt_reconnection] on the
    state before the query; there is an entry exactly for each client with
    a record. *)
Theorem get_reconnection_status_entries :
  forall now s cid,
    dict_get cid (fst (Reconnect.get_reconnection_status now s))
    = match dict_get cid s with
      | Some a =>
          Some (Reconnect.RStatus (Reconnect.count a) Reconnect.MAX_RECONNECT_ATTEMPTS
                  (Some (Reconnect.last_attempt a)) (Reconnect.last_success a)
                  (Some (now - Reconnect.last_attempt a))
                  (option_map (fun t => now - t) (Reconnect.last_success a))
                  (fst (Reconnect.should_attempt_reconnection now cid s)))
      | None => None
      end.
Proof.
  intros now s cid. unfold Reconnect.get_reconnection_status.
  apply ReconnectMoreFacts.status_loop_entries.
Qed.

(** X11. after [clear_reconnection_history cid], the gate lets [cid] through
    without touching the state, so the next DNS change of [cid] makes a
    reconnection attempt when the client is in the store; the records of
    the other clients are unchanged. After
    [clear_all_reconnection_history] the gate lets every client through. *)
Theorem clear_reconnection_history_resets_gate :
  (forall now tu cid e s,
     let s1 := Reconnect.clear_reconnection_history cid s in
     Reconnect.should_attempt_reconnection now cid s1 = (true, s1)
     /\ fst (Reconnect.handle_dns_change now tu cid Reconnect.ClientFound e s1)
        = Reconnect.Returned true
     /\ (forall cid', cid' <> cid -> dict_get cid' s1 = dict_get cid' s))
  /\ (forall now cid s,
        Reconnect.should_attempt_reconnection now cid
          (ReconnectMore.clear_all_reconnection_history s)
        = (true, ReconnectMore.clear_all_reconnection_history s)).
Proof.
  split; [|reflexivity].
  intros now tu cid e s s1.
  assert (Hn : dict_get cid s1 = None).
  { unfold s1, Reconnect.clear_reconnection_history.
    destruct (dict_mem cid s) eqn:Hm; [apply get_del_same|apply get_none_mem; exact Hm]. }
  pose proof (ReconnectFacts.should_none now cid s1 Hn) as G.
  split; [exact G|]. split.
  - unfold Reconnect.handle_dns_change. rewrite G. reflexivity.
  - intros cid' Hne. unfold s1, Reconnect.clear_reconnection_history.
    destruct (dict_mem cid s); [apply get_del_other; exact Hne|reflexivity].
Qed.

(** X12. the [handle_dns_changes] callback handles the changes in order and
    stops at the first exception: its outcomes are either one returned
    outcome per change, or returned outcomes for a prefix of the changes
    followed by one exception. A client that no change is about keeps its
    reconnection record. *)
Theorem handle_dns_changes_outcomes :
  forall answers i changes s,
    let (rs, s') := DnsCallback.handle_dns_changes answers i changes s in
    ((Forall (fun r => r <> Reconnect.Raised) rs /\ length rs = length changes)
     \/ (exists pre, rs = app pre [Reconnect.Raised]
                     /\ Forall (fun r => r <> Reconnect.Raised) pre
                     /\ (length rs <= length changes)%nat))
    /\ (forall cid, ~ In cid (map Dns.c_client_id changes) -> dict_get cid s' = dict_get cid s).
Proof.
  intros answers i changes. revert i.
  induction changes as [|ch rest IH]; intros i s; cbn [DnsCallback.handle_dns_changes].
  { split; [left; split; [constructor|reflexivity]|reflexivity]. }
  destruct (answers i) as [[[tg tu] lk] e].
  pose proof (ReconnectMoreFacts.handle_get_other tg tu (Dns.c_client_id ch)) as Ho.
  destruct (Reconnect.handle_dns_change tg tu (Dns.c_client_id ch) lk e s) as [r s1] eqn:Eh.
  assert (Ho1 : forall cid, cid <> Dns.c_client_id ch -> dict_get cid s1 = dict_get cid s).
  { intros cid Hne. specialize (Ho cid lk e s Hne). rewrite Eh in Ho. exact Ho. }
  destruct r as [b|].
  - specialize (IH (S i) s1).
    destruct (DnsCallback.handle_dns_changes answers (S i) rest s1) as [rs s2].
    destruct IH as [Hout Hfr]. split.
    + destruct Hout as [[Hf Hl]|[pre [Ep [Hf Hl]]]].
      * left. split; [constructor; [discriminate|exact Hf]|simpl; rewrite Hl; reflexivity].
      * right. exists (Reconnect.Returned b :: pre). subst rs.
        split; [reflexivity|]. split; [constructor; [discriminate|exact Hf]|simpl; lia].
    + intros cid Hn. simpl in Hn. rewrite Hfr by (intros Hi; apply Hn; right; exact Hi).
      apply Ho1. intros E; apply Hn; left; symmetry; exact E.
  - split.
    + right. exists []. split; [reflexivity|]. split; [constructor|simpl; lia].
    + intros cid Hn. apply Ho1. intros E; apply Hn; left; symmetry; exact E.
Qed.

Lemma clear_reconnection_history_resets_gate_witness :
  dict_get "d" (Reconnect.clear_reconnection_history "c"
                  [("c", Reconnect.Attempts 3 0 None); ("d", Reconnect.Attempts 1 5 None)])
  = Some (Reconnect.Attempts 1 5 None).
Proof.
  refine (proj2 (proj2 (proj1 clear_reconnection_history_resets_gate 0 0 "c"
            (Reconnect.ReconnectEnv true true false None None)
            [("c", Reconnect.Attempts 3 0 None); ("d", Reconnect.Attempts 1 5 None)])) "d" _).
  discriminate.
Defined.

Lemma handle_dns_changes_outcomes_witness :
  dict_get "d" (snd (DnsCallback.handle_dns_changes
                       (fun _ => (0, 0, Reconnect.ClientFound,
                                  Reconnect.ReconnectEnv true true false None None))
                       0 [Dns.Change "c" "h" "1.1.1.1" "2.2.2.2" 7]
                       [("d", Reconnect.Attempts 1 5 None)]))
  = Some (Reconnect.Attempts 1 5 None).
Proof.
  pose proof (handle_dns_changes_outcomes
                (fun _ => (0, 0, Reconnect.ClientFound,
                           Reconnect.ReconnectEnv true true false None None))
                0 [Dns.Change "c" "h" "1.1.1.1" "2.2.2.2" 7]
                [("d", Reconnect.Attempts 1 5 None)]) as T.
  destruct (DnsCallback.handle_dns_changes _ _ _ _) as [rs s'].
  destruct T as [_ T]. apply T. simpl. intros [E|[]]. discriminate E.
Defined.
Module MonitorMoreFacts.
Import Monitor MonitorStatus MonitorScan.

Lemma connection_status_loop_get : forall now la items status p,
  NoDup (map fst items) ->
  dict_get p (connection_status_loop now la items status)
  = match dict_get p items with
    | Some lh => Some (CStatus (now - lh <? DISCONNECT_THRESHOLD) lh (dict_get p la) (now - lh))
    | None => dict_get p status
    end.
Proof.
  intros now la items. induction items as [|[k lh] rest IH]; intros status p Hnd; [reflexivity|].
  inversion Hnd as [|x y Hnot Hnd']; subst. cbn [connection_status_loop].
  rewrite IH by exact Hnd'. simpl.
  destruct (String.eqb_spec p k) as [->|Hne].
  - rewrite (DnsMoreFacts.get_notin k rest Hnot). apply get_set_same.
  - destruct (dict_get p rest); [reflexivity|]. apply get_set_other. exact Hne.
Qed.

Lemma process_line_inv : forall (P : string -> Prop) clock peers cp st line peers' cp' st',
  (forall p, In p (peer_names [line]) -> P p) ->
  scan_inv P peers cp st ->
  process_line clock peers cp st line = LContinue peers' cp' st' ->
  scan_inv P peers' cp' st'.
Proof.
  intros P clock peers cp st line peers' cp' st' HP Hi H.
  unfold scan_inv in *. destruct Hi as [Hk [Hc Hf]].
  unfold process_line in H.
  destruct (startswith "peer: " line) eqn:Es.
  { destruct (nth_error (py_split ": " line) 1) as [p|] eqn:Ep; [|discriminate].
    injection H as <- <- <-.
    assert (Pp : P p)
      by (apply HP; unfold peer_names; cbn [flat_map]; rewrite Es, Ep; left; reflexivity).
    split; [|split].
    - intros q Hq. destruct (String.eqb_spec q p) as [->|Hne]; [exact Pp|].
      rewrite get_set_other in Hq by exact Hne. exact (Hk q Hq).
    - intros q Hq. unfold truthy in Hq. destruct (String.eqb p ""); [discriminate|].
      injection Hq as <-. exact Pp.
    - intros q Hq. destruct (String.eqb_spec q p) as [->|Hne].
      + rewrite get_set_same in Hq. discriminate.
      + rewrite get_set_other in Hq by exact Hne. exact (Hf q Hq). }
  destruct (startswith "  latest handshake:" line);
    [|injection H as <- <- <-; split; [exact Hk|split; [exact Hc|exact Hf]]].
  destruct (truthy cp) as [p|] eqn:Et;
    [|injection H as <- <- <-; split;
      [exact Hk|split; [intros q Hq; rewrite Et in Hq; discriminate|exact Hf]]].
  assert (Pp : P p) by (apply Hc; reflexivity).
  assert (Hc' : forall q, truthy cp = Some q -> P q)
    by (intros q Hq; rewrite Et in Hq; exact (Hc q Hq)).
  destruct (nth_error (py_split ": " line) 1) as [hs|]; [|discriminate].
  destruct (String.eqb hs "0");
    [injection H as <- <- <-; split; [exact Hk|split; [exact Hc'|exact Hf]]|].
  destruct (parse_handshake hs) as [|secs| |]; try discriminate.
  - injection H as <- <- <-. split; [|split; [exact Hc'|]].
    + intros q Hq. destruct (String.eqb_spec q p) as [->|Hne]; [exact Pp|].
      rewrite get_set_other in Hq by exact Hne. exact (Hk q Hq).
    + intros q Hq. simpl in Hq |- *. destruct (String.eqb_spec q p) as [->|Hne].
      * rewrite get_set_same. discriminate.
      * rewrite get_set_other in Hq by exact Hne. rewrite get_set_other by exact Hne.
        exact (Hf q Hq).
  - injection H as <- <- <-. split; [|split; [exact Hc'|]].
    + intros q Hq. destruct (String.eqb_spec q p) as [->|Hne]; [exact Pp|].
      rewrite get_set_other in Hq by exact Hne. exact (Hk q Hq).
    + intros q Hq. simpl in Hq |- *. destruct (String.eqb_spec q p) as [->|Hne].
      * rewrite get_set_same. discriminate.
      * rewrite get_set_other in Hq by exact Hne. rewrite get_set_other by exact Hne.
        exact (Hf q Hq).
  - injection H as <- <- <-. split; [exact Hk|split; [exact Hc'|exact Hf]].
Qed.

Lemma scan_lines_inv : forall (P : string -> Prop) clock lines peers cp st peers' cp' st',
  (forall p, In p (peer_names lines) -> P p) ->
  scan_inv P peers cp st ->
  scan_lines clock lines peers cp st = LContinue peers' cp' st' ->
  scan_inv P peers' cp' st'.
Proof.
  intros P clock lines. induction lines as [|l ls IH]; intros peers cp st peers' cp' st' HP Hi H.
  - simpl in H. injection H as <- <- <-. exact Hi.
  - simpl in H.
    destruct (process_line clock peers cp st l) as [p1 c1 s1|s1] eqn:E; [|discriminate].
    assert (HP1 : forall p, In p (peer_names [l]) -> P p).
    { intros p Hp. apply HP. unfold peer_names in *. simpl in Hp |- *.
      rewrite app_nil_r in Hp. apply in_or_app. left. exact Hp. }
    assert (HP2 : forall p, In p (peer_names ls) -> P p).
    { intros p Hp. apply HP. unfold peer_names in *. simpl.
      apply in_or_app. right. exact Hp. }
    exact (IH p1 c1 s1 peers' cp' st' HP2 (process_line_inv P clock peers cp st l p1 c1 s1 HP1 Hi E) H).
Qed.

End MonitorMoreFacts.

(** X13. with distinct keys in [_last_handshakes], [get_connection_status]
    reads the clock once and has an entry exactly for each peer with a
    recorded handshake: its [connected] field is what [is_peer_connected]
    answers at that same reading, with the last handshake, the last alert
    of the peer and the time since the handshake. *)
Theorem get_connection_status_lookup :
  forall clock st,
    NoDup (map fst (Monitor.last_handshakes st)) ->
    let (status, st1) := MonitorStatus.get_connection_status clock st in
    st1 = Monitor.MState (Monitor.last_handshakes st) (Monitor.last_alerts st) (S (Monitor.reads st))
    /\ forall p,
         dict_get p status
         = match dict_get p (Monitor.last_handshakes st) with
           | Some lh =>
               Some (MonitorStatus.CStatus (fst (Monitor.is_peer_connected clock p st)) lh
                       (dict_get p (Monitor.last_alerts st)) (clock (Monitor.reads st) - lh))
           | None => None
           end.
Proof.
  intros clock st Hnd. unfold MonitorStatus.get_connection_status, Monitor.now_. simpl.
  split; [reflexivity|]. intros p.
  rewrite MonitorMoreFacts.connection_status_loop_get by exact Hnd.
  unfold Monitor.is_peer_connected.
  destruct (dict_get p (Monitor.last_handshakes st)); reflexivity.
Qed.

Lemma get_connection_status_lookup_witness :
  dict_get "P" (fst (MonitorStatus.get_connection_status (fun _ => 10)
                       (Monitor.MState [("P", 4)] [] 0)))
  = Some (MonitorStatus.CStatus true 4 None 6).
Proof.
  pose proof (get_connection_status_lookup (fun _ => 10) (Monitor.MState [("P", 4)] [] 0)) as T.
  destruct (MonitorStatus.get_connection_status (fun _ => 10) (Monitor.MState [("P", 4)] [] 0))
    as [status st1].
  destruct T as [_ T]; [repeat constructor; intros []|].
  simpl. rewrite T. reflexivity.
Defined.

(** X14. every peer in the result of [check_interface] comes from a
    [peer: ] line of the output of a [wg show] that exited with 0; a peer
    marked disconnected has a last handshake recorded in
    [_last_handshakes] after the call, and [_last_alerts] is not touched. *)
Theorem check_interface_peers_sound :
  forall clock wg_show interface st,
    let (peers, st') := Monitor.check_interface clock wg_show interface st in
    Monitor.last_alerts st' = Monitor.last_alerts st
    /\ forall p b, dict_get p peers = Some b ->
         (exists out err, wg_show interface = Monitor.WgCompleted 0 out err
                          /\ In p (MonitorStatus.peer_names (splitlines out)))
         /\ (b = false -> exists t, dict_get p (Monitor.last_handshakes st') = Some t).
Proof.
  intros clock wg_show interface st.
  pose proof (MonitorFacts.check_interface_alerts clock wg_show interface st) as Ha.
  unfold Monitor.check_interface in *.
  destruct (wg_show interface) as [|rc out err] eqn:Ew.
  { split; [exact Ha|intros p b Hp; discriminate]. }
  destruct (negb (rc =? 0)) eqn:Erc.
  { split; [exact Ha|intros p b Hp; discriminate]. }
  apply negb_false_iff, Z.eqb_eq in Erc. subst rc.
  destruct (Monitor.scan_lines clock (splitlines out) [] None st) as [peers cp st'|st'] eqn:Es.
  2:{ split; [exact Ha|intros p b Hp; discriminate]. }
  split; [exact Ha|].
  assert (Hinv : MonitorScan.scan_inv
                   (fun p => In p (MonitorStatus.peer_names (splitlines out))) peers cp st').
  { apply (MonitorMoreFacts.scan_lines_inv _ clock (splitlines out) [] None st); [tauto| |exact Es].
    split; [intros p Hp; exfalso; apply Hp; reflexivity|].
    split; [intros p Hp; discriminate|intros p Hp; discriminate]. }
  destruct Hinv as [Hk [_ Hf]].
  intros p b Hp. split.
  - exists out, err. split; [reflexivity|]. apply Hk. rewrite Hp. discriminate.
  - intros ->. specialize (Hf p Hp).
    destruct (dict_get p (Monitor.last_handshakes st')) as [t|]; [exists t; reflexivity|].
    contradiction.
Qed.

Lemma check_interface_peers_sound_witness :
  exists out err,
    (fun _ => Monitor.WgCompleted 0
                ("peer: P" ++ String (ascii_of_nat 10) "  latest handshake: 2 hours ago") "")
      "wg0" = Monitor.WgCompleted 0 out err
    /\ In "P" (MonitorStatus.peer_names (splitlines out)).
Proof.
  pose proof (check_interface_peers_sound (fun _ => 0)
                (fun _ => Monitor.WgCompleted 0
                   ("peer: P" ++ String (ascii_of_nat 10) "  latest handshake: 2 hours ago") "")
                "wg0" (Monitor.MState [] [] 0)) as T.
  destruct (Monitor.check_interface _ _ _ _) as [peers st'] eqn:E.
  destruct T as [_ T].
  assert (Hp : dict_get "P" peers = Some false)
    by (vm_compute in E; injection E as <- _; reflexivity).
  exact (proj1 (T "P" false Hp)).
Defined.
Module TasksFacts.
Import Monitor Tasks.

Lemma rfind_aux_app : forall c l1 l2 i acc,
  rfind_aux c (app l1 l2) i acc
  = rfind_aux c l2 (i + Z.of_nat (length l1)) (rfind_aux c l1 i acc).
Proof.
  intros c l1. induction l1 as [|x l1 IH]; intros l2 i acc; simpl.
  - rewrite Z.add_0_r. reflexivity.
  - rewrite IH. f_equal. lia.
Qed.

Lemma rfind_aux_notin : forall c l i acc, ~ In c l -> rfind_aux c l i acc = acc.
Proof.
  intros c l. induction l as [|x l IH]; intros i acc Hn; simpl; [reflexivity|].
  rewrite (proj2 (Ascii.eqb_neq x c)) by (intros ->; apply Hn; left; reflexivity).
  apply IH. intros Hi; apply Hn; right; exact Hi.
Qed.

Lemma rfind_last : forall c l1 l2,
  ~ In c l2 -> rfind c (app l1 (c :: l2)) = Z.of_nat (length l1).
Proof.
  intros c l1 l2 Hn. unfold rfind. rewrite rfind_aux_app. simpl.
  rewrite Ascii.eqb_refl. apply rfind_aux_notin. exact Hn.
Qed.

Lemma rfind_none : forall c l, ~ In c l -> rfind c l = -1.
Proof. intros c l Hn. apply rfind_aux_notin. exact Hn. Qed.

End TasksFacts.

(** X15. for a config path [dir/name.ext] whose [name] has no ['/'] and
    some character other than ['.'], and whose [ext] has no ['/'] and no
    ['.'], the interface name the task derives
    ([splitext(basename(path))[0]]) is [name]. *)
Theorem interface_name_of_config_path :
  forall dir name ext,
    ~ In "/"%char (list_ascii_of_string name) ->
    existsb (fun c => negb (Ascii.eqb c "."%char)) (list_ascii_of_string name) = true ->
    ~ In "/"%char (list_ascii_of_string ext) ->
    ~ In "."%char (list_ascii_of_string ext) ->
    Tasks.interface_name (dir ++ "/" ++ name ++ "." ++ ext) = name.
Proof.
  intros dir name ext Hn1 Hn2 He1 He2.
  set (D := list_ascii_of_string dir). set (N := list_ascii_of_string name).
  set (E := list_ascii_of_string ext).
  unfold Tasks.interface_name, Tasks.basename.
  rewrite !StrFacts.list_ascii_app. simpl. fold D N E.
  assert (Hnoslash : ~ In "/"%char (app N ("."%char :: E))).
  { intros Hi. apply in_app_or in Hi. destruct Hi as [Hi|[Hi|Hi]];
      [exact (Hn1 Hi)|discriminate|exact (He1 Hi)]. }
  rewrite (TasksFacts.rfind_last "/"%char D _ Hnoslash).
  replace (Z.to_nat (Z.of_nat (length D) + 1)) with (length (app D ["/"%char]))
    by (rewrite length_app; simpl; lia).
  replace (app D ("/"%char :: app N ("."%char :: E))) with
          (app (app D ["/"%char]) (app N ("."%char :: E)))
    by (rewrite <- app_assoc; reflexivity).
  rewrite StrFacts.skipn_length_app.
  unfold Tasks.splitext. rewrite list_ascii_of_string_of_list_ascii.
  rewrite (TasksFacts.rfind_none "/"%char _ Hnoslash).
  rewrite (TasksFacts.rfind_last "."%char N E He2).
  replace (-1 <? Z.of_nat (length N)) with true by (symmetry; apply Z.ltb_lt; lia).
  replace (Z.to_nat (Z.of_nat (length N) - (-1 + 1))) with (length N) by lia.
  replace (Z.to_nat (-1 + 1)) with O by reflexivity. rewrite skipn_O.
  rewrite StrFacts.firstn_length_app. fold N in Hn2. rewrite Hn2.
  replace (Z.to_nat (Z.of_nat (length N))) with (length N) by lia.
  rewrite StrFacts.firstn_length_app. simpl. apply string_of_list_ascii_of_string.
Qed.

Lemma interface_name_of_config_path_witness :
  Tasks.interface_name ("/etc/wireguard" ++ "/" ++ "wg.office" ++ "." ++ "conf") = "wg.office".
Proof.
  apply interface_name_of_config_path.
  - simpl. intuition discriminate.
  - reflexivity.
  - simpl. intuition discriminate.
  - simpl. intuition discriminate.
Defined.


Module AddressFacts.
Import Reconnect StrFacts.

Lemma search_address_eq : forall l,
  search_address l = match match_address_at l with
                     | Some g => Some g
                     | None => match l with [] => None | _ :: t => search_address t end
                     end.
Proof. intros [|x l]; reflexivity. Qed.

Lemma match_address_kw : forall l g, match_address_at l = Some g ->
  exists r, strip_prefix (list_ascii_of_string "Address") l = Some r.
Proof.
  intros l g H. unfold match_address_at in H.
  destruct (strip_prefix (list_ascii_of_string "Address") l) as [r|]; [exists r; reflexivity|].
  discriminate.
Qed.

Lemma addr_char_not_space : forall c, is_addr_char c = true -> is_space c = false.
Proof.
  intros c H. unfold is_addr_char in H. destruct (is_space c); [discriminate|reflexivity].
Qed.

Lemma match_address_line : forall ip R,
  ip <> [] -> Forall (fun c => is_addr_char c = true) ip ->
  match R with [] => True | c :: _ => is_addr_char c = false end ->
  match_address_at (app (list_ascii_of_string "Address = ") (app ip R)) = Some ip.
Proof.
  intros ip R Hne Hf HR. destruct ip as [|x ip]; [contradiction|].
  inversion Hf as [|y z Hx Hf']; subst.
  unfold match_address_at. simpl.
  rewrite (addr_char_not_space x Hx). simpl. rewrite Hx.
  rewrite (take_while_app _ ip R Hf').
  destruct R as [|c R]; [rewrite app_nil_r; reflexivity|].
  rewrite (take_while_stop _ c R HR), app_nil_r. reflexivity.
Qed.

Lemma search_address_line : forall pre ip R,
  py_in "Address" pre = false ->
  ip <> [] -> Forall (fun c => is_addr_char c = true) ip ->
  match R with [] => True | c :: _ => is_addr_char c = false end ->
  search_address
    (app (list_ascii_of_string pre)
       (ascii_of_nat 10 :: app (list_ascii_of_string "Address = ") (app ip R)))
  = Some ip.
Proof.
  intros pre ip R Hpre Hne Hf HR.
  rewrite (search_after_line "Address" match_address_at search_address
             search_address_eq match_address_kw (ascii_of_nat 10)).
  - rewrite search_address_eq, match_address_line by assumption. reflexivity.
  - simpl. intuition discriminate.
  - exists "A"%char, "ddress". split; [reflexivity|discriminate].
  - exact Hpre.
Qed.

End AddressFacts.

(** X17. when the client's config has, on a line after a part with no
    [Address], [Address = IP] where [IP] is a non-empty run of characters
    other than whitespace, ['/'] and [','] (followed by the end of the
    config or such a character), and deactivation, activation and the
    status update all succeed, [_reconnect_client] returns [True] after
    deactivating, sleeping, activating, marking the client active and
    pinging exactly [IP]; it logs the established handshake only when the
    ping exits with 0. *)
Theorem reconnect_client_pings_config_address :
  forall e pre ip rest,
    Reconnect.deactivate_ok e = true -> Reconnect.activate_ok e = true ->
    Reconnect.status_update_raises e = false ->
    Reconnect.config_content e
      = Some (pre ++ String (ascii_of_nat 10) ("Address = " ++ ip ++ rest)) ->
    py_in "Address" pre = false ->
    ip <> "" ->
    Forall (fun c => Reconnect.is_addr_char c = true) (list_ascii_of_string ip) ->
    match rest with "" => True | String c _ => Reconnect.is_addr_char c = false end ->
    Reconnect.reconnect_client e
    = (true, [Reconnect.ALog "reconnect_attempt"; Reconnect.ADeactivate; Reconnect.ASleep;
              Reconnect.AActivate; Reconnect.AMarkActive; Reconnect.APing ip]
             ++ (match Reconnect.ping_returncode e with
                 | Some rc => if rc =? 0 then [Reconnect.ALog "reconnect_handshake_established"]
                              else []
                 | None => []
                 end)
             ++ [Reconnect.ALog "reconnect_success"])%list.
Proof.
  intros e pre ip rest Hd Ha Hs Hc Hpre Hne Hf Hr.
  unfold Reconnect.reconnect_client. rewrite Hd, Ha, Hs. simpl.
  unfold Reconnect.probe. rewrite Hc. unfold Reconnect.extract_address.
  rewrite !StrFacts.list_ascii_app. simpl list_ascii_of_string at 2.
  rewrite !StrFacts.list_ascii_app.
  pose proof (AddressFacts.search_address_line pre (list_ascii_of_string ip)
                (list_ascii_of_string rest) Hpre) as S.
  cbn [list_ascii_of_string app] in S |- *. rewrite S.
  - simpl. rewrite (StrFacts.strip_no_space (list_ascii_of_string ip)).
    + rewrite string_of_list_ascii_of_string.
      reflexivity.
    + eapply Forall_impl; [|exact Hf]. exact AddressFacts.addr_char_not_space.
  - destruct ip; [contradiction|discriminate].
  - exact Hf.
  - destruct rest; exact Hr.
Qed.

Lemma reconnect_client_pings_config_address_witness :
  In (Reconnect.APing "10.0.0.2")
     (snd (Reconnect.reconnect_client
             (Reconnect.ReconnectEnv true true false
                (Some ("[Interface]" ++ String (ascii_of_nat 10) ("Address = " ++ "10.0.0.2" ++ "/32")))
                (Some 0)))).
Proof.
  rewrite (reconnect_client_pings_config_address
             (Reconnect.ReconnectEnv true true false
                (Some ("[Interface]" ++ String (ascii_of_nat 10) ("Address = " ++ "10.0.0.2" ++ "/32")))
                (Some 0)) "[Interface]" "10.0.0.2" "/32").
  - simpl. right. right. right. right. right. left. reflexivity.
  - reflexivity.
  - reflexivity.
  - reflexivity.
  - reflexivity.
  - reflexivity.
  - discriminate.
  - repeat constructor.
  - reflexivity.
Defined.
